(** * seek-tune: the song ingestion glue ([song/processor.go])

    A shallow embedding of [ProcessSongFromURL], [ProcessSongJSON] and
    [convertToWav].  The functions of the packages [utils], [wav],
    [shazam] and [db], and the calls into the Go standard library that
    touch the network, the file system or a child process, are the
    collaborators of this file: their answers are read from an
    environment [Env], every call is recorded as an [Event], and the
    effect of the file operations on the set of existing files is
    written out.  The definitions come first, the theorems after them. *)

From Stdlib Require Import ZArith NArith Ascii String DecimalString.
From Stdlib Require Import DecimalPos DecimalN.
From Stdlib Require Import Floats.PrimFloat.
From stdpp Require Import base list gmap strings.

Local Open Scope string_scope.
Local Open Scope list_scope.

(** ** Strings of the Go standard library *)

Module GoString.

(** [strings.HasSuffix]. *)
Fixpoint has_prefix_chars (p s : list ascii) : bool :=
  match p, s with
  | [], _ => true
  | a :: p', b :: s' => Ascii.eqb a b && has_prefix_chars p' s'
  | _ :: _, [] => false
  end.

Definition HasSuffix (s suffix : string) : bool :=
  has_prefix_chars (rev (list_ascii_of_string suffix))
                   (rev (list_ascii_of_string s)).

(** [strings.TrimSuffix]: [s] without the trailing [suffix], or [s]
    itself when it does not end with it. *)
Definition TrimSuffix (s suffix : string) : string :=
  if HasSuffix s suffix
  then string_of_list_ascii
         (take (String.length s - String.length suffix)
               (list_ascii_of_string s))
  else s.

(** [strconv.FormatUint(n, 10)]. *)
Definition FormatUint (n : N) : string :=
  NilZero.string_of_uint (N.to_uint n).

(** The verb [%d] of [fmt] on an [int]. *)
Definition FormatInt (z : Z) : string :=
  NilZero.string_of_int (Z.to_int z).

End GoString.

(** ** Paths: [path/filepath] with the separator [/] *)

Module filepath.

Definition Separator : ascii := "/"%char.

(** The elements between separators, empty ones included. *)
Fixpoint elements (s : string) : list string :=
  match s with
  | EmptyString => [EmptyString]
  | String c s' =>
      if Ascii.eqb c Separator then EmptyString :: elements s'
      else match elements s' with
           | e :: es => String c e :: es
           | [] => [String c EmptyString]
           end
  end.

(** The lexical pass of [Clean]: [stack] holds the elements kept so
    far, last one first.  Empty and [.] elements go; [..] removes the
    element before it, unless there is none to remove, and then it
    stays in a relative path and goes in a rooted one. *)
Fixpoint clean_elements (rooted : bool) (es stack : list string)
  : list string :=
  match es with
  | [] => rev stack
  | e :: es' =>
      if String.eqb e "" || String.eqb e "." then
        clean_elements rooted es' stack
      else if String.eqb e ".." then
        match stack with
        | top :: rest =>
            if String.eqb top ".."
            then clean_elements rooted es' (e :: stack)
            else clean_elements rooted es' rest
        | [] =>
            if rooted then clean_elements rooted es' []
            else clean_elements rooted es' [e]
        end
      else clean_elements rooted es' (e :: stack)
  end.

Fixpoint join_elements (es : list string) : string :=
  match es with
  | [] => ""
  | [e] => e
  | e :: es' => e ++ "/" ++ join_elements es'
  end.

Definition is_rooted (path : string) : bool :=
  match path with
  | String c _ => Ascii.eqb c Separator
  | EmptyString => false
  end.

(** [filepath.Clean]. *)
Definition Clean (path : string) : string :=
  let rooted := is_rooted path in
  let body := join_elements (clean_elements rooted (elements path) []) in
  if rooted then "/" ++ body
  else if String.eqb body "" then "." else body.

(** [filepath.Join] of two elements: empty elements are ignored and
    the result is cleaned. *)
Definition Join (a b : string) : string :=
  match String.eqb a "", String.eqb b "" with
  | true, true => ""
  | true, false => Clean b
  | false, true => Clean a
  | false, false => Clean (a ++ "/" ++ b)
  end.

(** [filepath.Ext]: the suffix of the last element from its last dot
    on, empty when that element has no dot.  [r] is the path read
    backwards, [acc] what has been passed. *)
Fixpoint ext_from_end (r acc : list ascii) : list ascii :=
  match r with
  | [] => []
  | c :: r' =>
      if Ascii.eqb c Separator then []
      else if Ascii.eqb c "."%char then c :: acc
      else ext_from_end r' (c :: acc)
  end.

Definition Ext (path : string) : string :=
  string_of_list_ascii
    (ext_from_end (rev (list_ascii_of_string path)) []).

End filepath.

(** ** Values *)

(** Go's [float64] is IEEE 754 binary64, and so is the kernel's float. *)
Definition float64 := PrimFloat.float.

Definition byte := Byte.byte.

(** An [error] is observed by this file through its message only: every
    error it receives is formatted with the verb [%v] into a new one. *)
Definition error := string.

(** The results [(T, error)] of a call: the value when the error is nil. *)
Inductive Result (A : Type) : Type :=
| Ok (a : A)
| Err (err : error).
Arguments Ok {A} a.
Arguments Err {A} err.

(** [fmt.Errorf(prefix + "%v", err)]. *)
Definition Errorf (prefix : string) (err : error) : error := prefix +:+ err.

(** The identifier of a song: an unsigned integer ([uint64(...)] of it
    is taken when the response is built). *)
Definition SongID := N.

Module http.
Record Response := { StatusCode : Z; Body : list byte }.
Definition StatusOK : Z := 200.
End http.

Module wav.
(** The fields of [wav.WavInfo] that the ingestion reads. *)
Record WavInfo := { Data : list byte; SampleRate : Z; Duration : float64 }.
End wav.

Module shazam.
(** Modelled from the spec: the types of package [shazam] are not among
    the sources.  A spectrogram is an ordered sequence of frames, each a
    vector of magnitudes by frequency bin; a peak is a frame index, a bin
    index and a magnitude; a fingerprint is a hash, the identifier of its
    track and the frame index of its anchor. *)
Definition Frame := list float64.
Definition Spectrogram := list Frame.
Record Peak := { frameIndex : Z; binIndex : Z; magnitude : float64 }.
Record Fingerprint := { hash : N; trackID : SongID; anchorTimeOffset : Z }.
End shazam.

Record SongInput := {
  SongURL : string;
  Title : string;
  Artist : string;
  YoutubeID : string;
  Duration : string
}.

Record ProcessResponse := {
  Success : bool;
  Message : string;
  FilePath : string;
  FingerprintID : string
}.

(** The two results, a pointer to a [ProcessResponse] and an [error],
    either of which may be nil. *)
Definition Returned := (option ProcessResponse * option error)%type.

(** ** Collaborators *)

(** What each call outside this file answers.  An [option error] is the
    single result [error], [None] being nil.  [Body_Close] is
    [resp.Body.Close()], [File_Close] the [Close] of the file created under
    the given name, [io_Copy] the error of [io.Copy] into that file (the
    count of bytes is dropped by the caller), [Cmd_Run] the [Run] of the
    command with the given arguments, [Cmd_leaves_output] whether a run of
    it that fails leaves an output file behind.  [shazam.ExtractPeaks] and
    [shazam.Fingerprint] have the one result that their call sites bind,
    [utils.GenerateUniqueID] takes no argument, and [RegisterSong] is not
    given the generated identifier. *)
Record Env := {
  utils_CreateFolder : string -> option error;
  utils_GenerateUniqueID : SongID;
  http_Get : string -> Result http.Response;
  Body_Close : option error;
  os_Create : string -> option error;
  File_Close : string -> option error;
  io_Copy : string -> list byte -> option error;
  Cmd_Run : list string -> option error;
  Cmd_leaves_output : list string -> bool;
  os_Remove : string -> option error;
  os_Rename : string -> string -> option error;
  wav_ReadWavInfo : string -> Result wav.WavInfo;
  wav_WavBytesToSamples : list byte -> Result (list float64);
  shazam_Spectrogram : list float64 -> Z -> Result shazam.Spectrogram;
  shazam_ExtractPeaks : shazam.Spectrogram -> float64 -> list shazam.Peak;
  shazam_Fingerprint : list shazam.Peak -> SongID -> list shazam.Fingerprint;
  db_NewDBClient : option error;
  db_RegisterSong : string -> string -> string -> Result SongID;
  db_StoreFingerprints : list shazam.Fingerprint -> option error;
  json_Unmarshal : list byte -> Result SongInput
}.

(** One call, with its arguments and what it answered. *)
Inductive Event : Type :=
| EvCreateFolder (dir : string) (r : option error)
| EvGet (url : string) (r : Result http.Response)
| EvBodyClose (r : option error)
| EvCreate (name : string) (r : option error)
| EvFileClose (name : string) (r : option error)
| EvCopy (dst : string) (src : list byte) (r : option error)
| EvRun (argv : list string) (r : option error)
| EvRemove (name : string) (r : option error)
| EvRename (oldpath newpath : string) (r : option error)
| EvReadWavInfo (path : string) (r : Result wav.WavInfo)
| EvWavBytesToSamples (data : list byte) (r : Result (list float64))
| EvSpectrogram (samples : list float64) (rate : Z)
                (r : Result shazam.Spectrogram)
| EvExtractPeaks (spectrogram : shazam.Spectrogram) (duration : float64)
                 (peaks : list shazam.Peak)
| EvGenerateUniqueID (id : SongID)
| EvFingerprint (peaks : list shazam.Peak) (songID : SongID)
                (fps : list shazam.Fingerprint)
| EvNewDBClient (r : option error)
| EvDBClose
| EvRegisterSong (title artist ytID : string) (r : Result SongID)
| EvStoreFingerprints (fps : list shazam.Fingerprint) (r : option error)
| EvLogError (msg : string) (err : error).

(** ** The monad of a function body *)

(** A statement either goes on with a value or makes the function return. *)
Inductive Step (R A : Type) : Type :=
| Next (a : A)
| Return (r : R).
Arguments Next {R A} a.
Arguments Return {R A} r.

(** A computation inside a function of result type [R]: from the files
    that exist to a step, the files that exist then and the calls made. *)
Definition M (R A : Type) : Type :=
  gset string -> Step R A * gset string * list Event.

Definition M_ret {R A} (a : A) : M R A := fun fs => (Next a, fs, []).

Definition M_bind {R A B} (f : A -> M R B) (m : M R A) : M R B :=
  fun fs =>
    match m fs with
    | (Next a, fs1, es1) =>
        match f a fs1 with
        | (s, fs2, es2) => (s, fs2, es1 ++ es2)
        end
    | (Return r, fs1, es1) => (Return r, fs1, es1)
    end.

#[global] Instance M_mret {R} : MRet (M R) := @M_ret R.
#[global] Instance M_mbind {R} : MBind (M R) := @M_bind R.

(** The statement [return r]. *)
Definition return_ {R A} (r : R) : M R A := fun fs => (Return r, fs, []).

Definition emit {R} (e : Event) : M R unit := fun fs => (Next tt, fs, [e]).

Definition modify_files {R} (f : gset string -> gset string) : M R unit :=
  fun fs => (Next tt, f fs, []).

(** [defer d] followed by the statements [rest]: [d] runs when the
    function returns, after everything deferred later. *)
Definition defer {R A} (d : M R unit) (rest : M R A) : M R A :=
  fun fs =>
    match rest fs with
    | (s, fs1, es1) =>
        match d fs1 with
        | (_, fs2, es2) => (s, fs2, es1 ++ es2)
        end
    end.

(** A call of a function whose body is [body]. *)
Definition call {R R'} (body : M R' R') : M R R' :=
  fun fs =>
    match body fs with
    | (Next r, fs1, es) | (Return r, fs1, es) => (Next r, fs1, es)
    end.

(** A function run from the files [fs]: its results, the files left and
    the calls it made, in order. *)
Definition run {R} (body : M R R) (fs : gset string)
  : R * gset string * list Event :=
  match body fs with
  | (Next r, fs1, es) | (Return r, fs1, es) => (r, fs1, es)
  end.

Definition results {R} (o : R * gset string * list Event) : R := o.1.1.
Definition files {R} (o : R * gset string * list Event) : gset string := o.1.2.
Definition trace {R} (o : R * gset string * list Event) : list Event := o.2.

(** ** The program *)

(** [ProcessSongFromURL] is given a pointer to a [SongInput]; it is taken
    here as the value it points to. *)

Section Program.

Context (env : Env).

(** *** The calls, each recorded with its answer *)

Definition CreateFolder {R} (dir : string) : M R (option error) :=
  let r := utils_CreateFolder env dir in
  emit (EvCreateFolder dir r);; mret r.

Definition GenerateUniqueID {R} : M R SongID :=
  let id := utils_GenerateUniqueID env in
  emit (EvGenerateUniqueID id);; mret id.

Definition Get {R} (url : string) : M R (Result http.Response) :=
  let r := http_Get env url in
  emit (EvGet url r);; mret r.

Definition BodyClose {R} : M R unit :=
  emit (EvBodyClose (Body_Close env)).

(** [os.Create] creates or truncates the named file. *)
Definition Create {R} (name : string) : M R (option error) :=
  let r := os_Create env name in
  emit (EvCreate name r);;
  match r with
  | None => modify_files (fun fs => fs ∪ {[name]})
  | Some _ => mret tt
  end;;
  mret r.

Definition FileClose {R} (name : string) : M R unit :=
  emit (EvFileClose name (File_Close env name)).

Definition Copy {R} (dst : string) (src : list byte) : M R (option error) :=
  let r := io_Copy env dst src in
  emit (EvCopy dst src r);; mret r.

(** [cmd.Run()] of the ffmpeg command line [argv]: a successful run
    leaves the output file, which is the last argument; a run that fails
    may have left one, whole or in part, or none. *)
Definition Run {R} (argv : list string) : M R (option error) :=
  let r := Cmd_Run env argv in
  emit (EvRun argv r);;
  match r with
  | None => modify_files (fun fs => fs ∪ {[List.last argv ""]})
  | Some _ =>
      if Cmd_leaves_output env argv
      then modify_files (fun fs => fs ∪ {[List.last argv ""]})
      else mret tt
  end;;
  mret r.

(** [os.Remove]: the file is gone when it succeeds. *)
Definition Remove {R} (name : string) : M R unit :=
  let r := os_Remove env name in
  emit (EvRemove name r);;
  match r with
  | None => modify_files (fun fs => fs ∖ {[name]})
  | Some _ => mret tt
  end.

(** [os.Rename]: when it succeeds the file is at [newpath] and no
    longer at [oldpath]; when it fails nothing has moved. *)
Definition Rename {R} (oldpath newpath : string) : M R (option error) :=
  let r := os_Rename env oldpath newpath in
  emit (EvRename oldpath newpath r);;
  match r with
  | None => modify_files (fun fs => fs ∖ {[oldpath]} ∪ {[newpath]})
  | Some _ => mret tt
  end;;
  mret r.

Definition ReadWavInfo {R} (path : string) : M R (Result wav.WavInfo) :=
  let r := wav_ReadWavInfo env path in
  emit (EvReadWavInfo path r);; mret r.

Definition WavBytesToSamples {R} (data : list byte)
  : M R (Result (list float64)) :=
  let r := wav_WavBytesToSamples env data in
  emit (EvWavBytesToSamples data r);; mret r.

Definition Spectrogram {R} (samples : list float64) (rate : Z)
  : M R (Result shazam.Spectrogram) :=
  let r := shazam_Spectrogram env samples rate in
  emit (EvSpectrogram samples rate r);; mret r.

Definition ExtractPeaks {R} (spectrogram : shazam.Spectrogram)
           (duration : float64) : M R (list shazam.Peak) :=
  let peaks := shazam_ExtractPeaks env spectrogram duration in
  emit (EvExtractPeaks spectrogram duration peaks);; mret peaks.

Definition Fingerprint {R} (peaks : list shazam.Peak) (songID : SongID)
  : M R (list shazam.Fingerprint) :=
  let fps := shazam_Fingerprint env peaks songID in
  emit (EvFingerprint peaks songID fps);; mret fps.

Definition NewDBClient {R} : M R (option error) :=
  let r := db_NewDBClient env in
  emit (EvNewDBClient r);; mret r.

Definition DBClose {R} : M R unit := emit EvDBClose.

Definition RegisterSong {R} (title artist ytID : string)
  : M R (Result SongID) :=
  let r := db_RegisterSong env title artist ytID in
  emit (EvRegisterSong title artist ytID r);; mret r.

Definition StoreFingerprints {R} (fps : list shazam.Fingerprint)
  : M R (option error) :=
  let r := db_StoreFingerprints env fps in
  emit (EvStoreFingerprints fps r);; mret r.

(** [logger.ErrorContext(ctx, msg, slog.Any("error", err))]. *)
Definition LogError {R} (msg : string) (err : error) : M R unit :=
  emit (EvLogError msg err).

(** *** [convertToWav] *)

Definition wavPath (inputPath : string) : string :=
  GoString.TrimSuffix inputPath (filepath.Ext inputPath) +:+ ".wav".

Definition convertToWav (inputPath : string)
  : M (Result string) (Result string) :=
  let outputPath := wavPath inputPath in
  err ← Run ["ffmpeg"; "-i"; inputPath; "-acodec"; "pcm_s16le";
             "-ar"; "44100"; "-ac"; "2"; outputPath];
  match err with
  | Some err => return_ (Err (Errorf "failed to convert to WAV: " err))
  | None => return_ (Ok outputPath)
  end.

(** *** [ProcessSongFromURL] *)

Definition tmpMP3Path (input : SongInput) : string :=
  filepath.Join "tmp" (Title input +:+ "_" +:+ Artist input +:+ ".mp3").

Definition finalPathOf (input : SongInput) : string :=
  filepath.Join "songs" (Title input +:+ "_" +:+ Artist input +:+ ".wav").

Definition fail {A} (prefix : string) (err : error) : M Returned A :=
  return_ (None, Some (Errorf prefix err)).

Definition ProcessSongFromURL (input : SongInput) : M Returned Returned :=
  err ← CreateFolder "tmp";
  match err with
  | Some err => fail "failed to create tmp directory: " err
  | None =>
  err ← CreateFolder "songs";
  match err with
  | Some err => fail "failed to create songs directory: " err
  | None =>
  resp ← Get (SongURL input);
  match resp with
  | Err err => fail "failed to download song: " err
  | Ok resp =>
  defer BodyClose (
  if negb (http.StatusCode resp =? http.StatusOK)%Z then
    fail "received non-200 status code: "
         (GoString.FormatInt (http.StatusCode resp))
  else
  let tmpMP3File := tmpMP3Path input in
  out ← Create tmpMP3File;
  match out with
  | Some err => fail "failed to create temporary file: " err
  | None =>
  defer (FileClose tmpMP3File) (
  err ← Copy tmpMP3File (http.Body resp);
  match err with
  | Some err => fail "failed to save downloaded file: " err
  | None =>
  tmpWavFile ← call (convertToWav tmpMP3File);
  match tmpWavFile with
  | Err err =>
      LogError "Error converting to WAV" err;;
      fail "error converting to WAV: " err
  | Ok tmpWavFile =>
  defer (Remove tmpMP3File) (
  wavInfo ← ReadWavInfo tmpWavFile;
  match wavInfo with
  | Err err =>
      LogError "Error reading wave info" err;;
      fail "error reading wave info: " err
  | Ok wavInfo =>
  samples ← WavBytesToSamples (wav.Data wavInfo);
  match samples with
  | Err err =>
      LogError "Error converting to samples" err;;
      fail "error converting to samples: " err
  | Ok samples =>
  spectrogram ← Spectrogram samples (wav.SampleRate wavInfo);
  match spectrogram with
  | Err err =>
      LogError "Error generating spectrogram" err;;
      fail "error generating spectrogram: " err
  | Ok spectrogram =>
  peaks ← ExtractPeaks spectrogram (wav.Duration wavInfo);
  songID ← GenerateUniqueID;
  fingerprints ← Fingerprint peaks songID;
  dbClient ← NewDBClient;
  match dbClient with
  | Some err =>
      LogError "Error creating DB client" err;;
      fail "error creating DB client: " err
  | None =>
  defer DBClose (
  registeredSongID ← RegisterSong (Title input) (Artist input)
                                  (YoutubeID input);
  match registeredSongID with
  | Err err =>
      LogError "Error registering song" err;;
      fail "error registering song: " err
  | Ok registeredSongID =>
  err ← StoreFingerprints fingerprints;
  match err with
  | Some err =>
      LogError "Error storing fingerprints" err;;
      fail "error storing fingerprints: " err
  | None =>
  let finalPath := finalPathOf input in
  err ← Rename tmpWavFile finalPath;
  match err with
  | Some err => LogError "Error moving file to songs directory" err
  | None => mret tt
  end;;
  return_ (Some {| Success := true;
                   Message := "Song processed successfully";
                   FilePath := finalPath;
                   FingerprintID := GoString.FormatUint registeredSongID |},
           None)
  end end) end end end end) end end) end) end end end.

(** *** [ProcessSongJSON] *)

Definition ProcessSongJSON (jsonInput : list byte) : M Returned Returned :=
  match json_Unmarshal env jsonInput with
  | Err err => fail "failed to parse JSON input: " err
  | Ok input =>
      if String.eqb (SongURL input) "" then
        return_ (None, Some "song_url is required")
      else if String.eqb (Title input) "" then
        return_ (None, Some "title is required")
      else if String.eqb (Artist input) "" then
        return_ (None, Some "artist is required")
      else
        r ← call (ProcessSongFromURL input); return_ r
  end.

End Program.

(** ** The vocabulary of the properties *)

(** *** The download *)

(** The calls that convert, fingerprint or store. *)
Definition ingestion_work (e : Event) : bool :=
  match e with
  | EvCreate _ _ | EvCopy _ _ _ | EvRun _ _ | EvRename _ _ _
  | EvReadWavInfo _ _ | EvWavBytesToSamples _ _ | EvSpectrogram _ _ _
  | EvExtractPeaks _ _ _ | EvGenerateUniqueID _ | EvFingerprint _ _ _
  | EvNewDBClient _ | EvRegisterSong _ _ _ _ | EvStoreFingerprints _ _ => true
  | _ => false
  end.

(** *** The order of the steps *)

(** The steps of the core: build the spectrogram, extract the peaks,
    generate the fingerprints, register the track, put the fingerprints. *)
Inductive CoreStep : Type :=
| build | extract | generate | registerTrack | put.

Definition core_step (e : Event) : option CoreStep :=
  match e with
  | EvSpectrogram _ _ _ => Some build
  | EvExtractPeaks _ _ _ => Some extract
  | EvFingerprint _ _ _ => Some generate
  | EvRegisterSong _ _ _ _ => Some registerTrack
  | EvStoreFingerprints _ _ => Some put
  | _ => None
  end.

Definition core_steps (tr : list Event) : list CoreStep := omap core_step tr.

(** *** Failures *)

(** The call answered with an error, or the download with a status other
    than 200. *)
Definition failed (e : Event) : bool :=
  match e with
  | EvCreateFolder _ (Some _) | EvGet _ (Err _) | EvBodyClose (Some _)
  | EvCreate _ (Some _) | EvFileClose _ (Some _) | EvCopy _ _ (Some _)
  | EvRun _ (Some _) | EvRemove _ (Some _) | EvRename _ _ (Some _)
  | EvReadWavInfo _ (Err _) | EvWavBytesToSamples _ (Err _)
  | EvSpectrogram _ _ (Err _) | EvNewDBClient (Some _)
  | EvRegisterSong _ _ _ (Err _) | EvStoreFingerprints _ (Some _) => true
  | EvGet _ (Ok resp) => negb (http.StatusCode resp =? http.StatusOK)%Z
  | _ => false
  end.

(** The calls whose error the function does not look at: the deferred
    closes and removal, and the rename, which it only logs. *)
Definition unchecked (e : Event) : bool :=
  match e with
  | EvBodyClose _ | EvFileClose _ _ | EvRemove _ _ | EvRename _ _ _ => true
  | _ => false
  end.

(** C2 as the spec has it: whichever step fails, an error is returned and
    no response. *)
Definition surfaces_every_failure (env : Env) (input : SongInput)
  (fs : gset string) : Prop :=
  let o := run (ProcessSongFromURL env input) fs in
  forall e, In e (trace o) -> failed e = true ->
            exists err, results o = (None, Some err).

(** *** Failures of the store *)

Inductive StoreOp : Type := opRegisterSong | opStoreFingerprints.

Definition store_call (op : StoreOp) (e : Event) : bool :=
  match op, e with
  | opRegisterSong, EvRegisterSong _ _ _ _ => true
  | opStoreFingerprints, EvStoreFingerprints _ _ => true
  | _, _ => false
  end.

(** The error with which the store answered the call [e] of [op]. *)
Definition store_error (op : StoreOp) (e : Event) : option error :=
  match op, e with
  | opRegisterSong, EvRegisterSong _ _ _ (Err err) => Some err
  | opStoreFingerprints, EvStoreFingerprints _ (Some err) => Some err
  | _, _ => None
  end.

Definition calls (op : StoreOp) (tr : list Event) : nat :=
  length (List.filter (store_call op) tr).

Definition store_prefix (op : StoreOp) : string :=
  match op with
  | opRegisterSong => "error registering song: "
  | opStoreFingerprints => "error storing fingerprints: "
  end.

(** C4 as the spec has it: the error of the store is the error returned,
    and the store was called once. *)
Definition propagates_verbatim (env : Env) (input : SongInput)
  (fs : gset string) : Prop :=
  let o := run (ProcessSongFromURL env input) fs in
  forall op e err, In e (trace o) -> store_error op e = Some err ->
                   results o = (None, Some err) /\ calls op (trace o) = 1.

(** *** The identifier in the fingerprints *)

(** Modelled from the spec: the body of [shazam.Fingerprint] is not among
    the sources.  Every fingerprint it emits carries the track identifier
    it was given. *)
Definition stamps_trackID (env : Env) : Prop :=
  forall peaks id,
    Forall (fun fp => shazam.trackID fp = id) (shazam_Fingerprint env peaks id).

(** *** The contracts of the extraction and of the generation *)




(** *** The response *)

(** The string holds a path separator. *)
Fixpoint has_separator (s : string) : bool :=
  match s with
  | EmptyString => false
  | String c s' => Ascii.eqb c filepath.Separator || has_separator s'
  end.

(** The path [songs/<Title>_<Artist>.wav], letter for letter. *)
Definition songs_path (input : SongInput) : string :=
  "songs/" +:+ Title input +:+ "_" +:+ Artist input +:+ ".wav".

(** C10 as the spec has it: the response of a successful call, and no
    file at the reported path when the rename has failed. *)
Definition response_as_reported (env : Env) (input : SongInput)
  (fs : gset string) : Prop :=
  let o := run (ProcessSongFromURL env input) fs in
  forall resp,
    (results o).1 = Some resp ->
    Success resp = true /\
    Message resp = "Song processed successfully" /\
    (exists registeredSongID,
        In (EvRegisterSong (Title input) (Artist input) (YoutubeID input)
                           (Ok registeredSongID)) (trace o) /\
        FingerprintID resp = GoString.FormatUint registeredSongID) /\
    FilePath resp = songs_path input /\
    (forall oldpath err,
        In (EvRename oldpath (FilePath resp) (Some err)) (trace o) ->
        FilePath resp ∉ files o).

(** ** Concrete environments and inputs *)

(** An ingestion in which every call answers as given here: the download
    ends with [status], the spectrogram builder answers [spectrogram],
    the peak extractor [peaks], the identifier generator [uid], the
    fingerprint generator stamps the identifier it is given on one
    fingerprint per peak, the store answers [registered] to the
    registration and [stored] to the fingerprints, and the rename
    answers [renamed]; every other call succeeds. *)
Definition studio (status : Z) (spectrogram : Result shazam.Spectrogram)
  (peaks : list shazam.Peak) (uid : SongID) (registered : Result SongID)
  (stored renamed : option error) : Env :=
  {| utils_CreateFolder := fun _ => None;
     utils_GenerateUniqueID := uid;
     http_Get := fun _ =>
       Ok {| http.StatusCode := status; http.Body := [Byte.x49; Byte.x44] |};
     Body_Close := None;
     os_Create := fun _ => None;
     File_Close := fun _ => None;
     io_Copy := fun _ _ => None;
     Cmd_Run := fun _ => None;
     Cmd_leaves_output := fun _ => false;
     os_Remove := fun _ => None;
     os_Rename := fun _ _ => renamed;
     wav_ReadWavInfo := fun _ =>
       Ok {| wav.Data := [Byte.x00; Byte.x40];
             wav.SampleRate := 44100;
             wav.Duration := 1%float |};
     wav_WavBytesToSamples := fun _ => Ok [0.5%float];
     shazam_Spectrogram := fun _ _ => spectrogram;
     shazam_ExtractPeaks := fun _ _ => peaks;
     shazam_Fingerprint := fun ps id =>
       map (fun p => {| shazam.hash := Z.to_N (shazam.binIndex p);
                        shazam.trackID := id;
                        shazam.anchorTimeOffset := shazam.frameIndex p |}) ps;
     db_NewDBClient := None;
     db_RegisterSong := fun _ _ _ => registered;
     db_StoreFingerprints := fun _ => stored;
     json_Unmarshal := fun _ => Err "unexpected end of JSON input" |}.

Definition hey_jude : SongInput :=
  {| SongURL := "http://cdn.example/hey.mp3";
     Title := "Hey Jude";
     Artist := "The Beatles";
     YoutubeID := "A_MjCqQoLLA";
     Duration := "431" |}.

Definition one_peak : list shazam.Peak :=
  [ {| shazam.frameIndex := 3; shazam.binIndex := 40;
       shazam.magnitude := 2%float |} ].

(** The rename of the converted file fails here. *)
Definition rename_fails : Env :=
  studio 200 (Ok [[1%float]]) one_peak 7%N (Ok 9%N) None
         (Some "invalid cross-device link").

(** The store refuses the fingerprints here. *)
Definition store_refuses : Env :=
  studio 200 (Ok [[1%float]]) one_peak 7%N (Ok 9%N)
         (Some "database is locked") None.

(** The generator answers 7 and the store registers the song as 9. *)
Definition two_ids : Env :=
  studio 200 (Ok [[1%float]]) one_peak 7%N (Ok 9%N) None None.

Definition the_fingerprints : list shazam.Fingerprint :=
  [{| shazam.hash := 40; shazam.trackID := 7%N;
      shazam.anchorTimeOffset := 3 |}].

(** A title with a doubled separator in it. *)
Definition closer : SongInput :=
  {| SongURL := "http://cdn.example/closer.mp3";
     Title := "Closer // Further";
     Artist := "The Band";
     YoutubeID := "";
     Duration := "" |}.

(** *** JSON inputs *)

(** The quotation mark, and a JSON member with a string value. *)
Definition quote : string := String (ascii_of_nat 34) EmptyString.

Definition member (key value : string) : string :=
  quote +:+ key +:+ quote +:+ ":" +:+ quote +:+ value +:+ quote.

Definition hey_jude_json : string :=
  "{" +:+ member "song_url" "http://cdn.example/hey.mp3" +:+ ","
      +:+ member "title" "Hey Jude" +:+ ","
      +:+ member "artist" "The Beatles" +:+ "}".

Definition untitled_json : string :=
  "{" +:+ member "song_url" "http://cdn.example/hey.mp3" +:+ ","
      +:+ member "artist" "The Beatles" +:+ "}".

Definition hey_jude_parsed : SongInput :=
  {| SongURL := "http://cdn.example/hey.mp3";
     Title := "Hey Jude";
     Artist := "The Beatles";
     YoutubeID := "";
     Duration := "" |}.

Definition untitled_parsed : SongInput :=
  {| SongURL := "http://cdn.example/hey.mp3";
     Title := "";
     Artist := "The Beatles";
     YoutubeID := "";
     Duration := "" |}.

(** What [json.Unmarshal] answers on three inputs. *)
Definition decoder (jsonInput : list byte) : Result SongInput :=
  let text := string_of_list_byte jsonInput in
  if String.eqb text hey_jude_json then Ok hey_jude_parsed
  else if String.eqb text untitled_json then Ok untitled_parsed
  else Err "invalid character 'h' looking for beginning of value".

(** [env] with the JSON decoder [decode]. *)
Definition with_json (decode : list byte -> Result SongInput) (env : Env)
  : Env :=
  {| utils_CreateFolder := utils_CreateFolder env;
     utils_GenerateUniqueID := utils_GenerateUniqueID env;
     http_Get := http_Get env;
     Body_Close := Body_Close env;
     os_Create := os_Create env;
     File_Close := File_Close env;
     io_Copy := io_Copy env;
     Cmd_Run := Cmd_Run env;
     Cmd_leaves_output := Cmd_leaves_output env;
     os_Remove := os_Remove env;
     os_Rename := os_Rename env;
     wav_ReadWavInfo := wav_ReadWavInfo env;
     wav_WavBytesToSamples := wav_WavBytesToSamples env;
     shazam_Spectrogram := shazam_Spectrogram env;
     shazam_ExtractPeaks := shazam_ExtractPeaks env;
     shazam_Fingerprint := shazam_Fingerprint env;
     db_NewDBClient := db_NewDBClient env;
     db_RegisterSong := db_RegisterSong env;
     db_StoreFingerprints := db_StoreFingerprints env;
     json_Unmarshal := decode |}.

Definition service : Env := with_json decoder two_ids.

(** ** The vocabulary of the further properties *)

(** An element that [Clean] keeps: not empty, not [.], not [..]. *)
Definition kept_element (e : string) : Prop :=
  String.eqb e "" = false /\ String.eqb e "." = false /\
  String.eqb e ".." = false.

(** The command line of line 38. *)
Definition ffmpeg_command (inputPath outputPath : string) : list string :=
  ["ffmpeg"; "-i"; inputPath; "-acodec"; "pcm_s16le";
   "-ar"; "44100"; "-ac"; "2"; outputPath].

(** The calls that the function defers. *)
Definition cleanup (e : Event) : bool :=
  match e with
  | EvBodyClose _ | EvFileClose _ _ | EvRemove _ _ | EvDBClose => true
  | _ => false
  end.

(** The four deferred calls of a run that got as far as the store, in the
    order in which they run. *)
Definition deferred_calls (env : Env) (input : SongInput) : list Event :=
  [EvDBClose;
   EvRemove (tmpMP3Path input) (os_Remove env (tmpMP3Path input));
   EvFileClose (tmpMP3Path input) (File_Close env (tmpMP3Path input));
   EvBodyClose (Body_Close env)].

(** What a deferred call undoes: the response body, the created file, the
    downloaded MP3 once it has been converted, the store client. *)
Inductive Resource : Type :=
| theBody | theFile | theDownload | theClient.

(** The call after which the release of the resource is deferred. *)
Definition acquires (res : Resource) (e : Event) : bool :=
  match res, e with
  | theBody, EvGet _ (Ok _) => true
  | theFile, EvCreate _ None => true
  | theDownload, EvRun _ None => true
  | theClient, EvNewDBClient None => true
  | _, _ => false
  end.

Definition releases (res : Resource) (e : Event) : bool :=
  match res, e with
  | theBody, EvBodyClose _ => true
  | theFile, EvFileClose _ _ => true
  | theDownload, EvRemove _ _ => true
  | theClient, EvDBClose => true
  | _, _ => false
  end.

Definition count (p : Event -> bool) (tr : list Event) : nat :=
  length (List.filter p tr).

(** The write or the conversion of the downloaded file failed. *)
Definition download_unusable (e : Event) : bool :=
  match e with
  | EvCopy _ _ (Some _) | EvRun _ (Some _) => true
  | _ => false
  end.

Definition is_log (e : Event) : bool :=
  match e with
  | EvLogError _ _ => true
  | _ => false
  end.

(** The prefix of the returned error for a logged message: the message
    with a small initial, a colon and a space. *)
Definition returned_prefix (msg : string) : string :=
  match msg with
  | String _ rest => String "e" rest +:+ ": "
  | EmptyString => ": "
  end.

(** The paths that a call names as a file it creates, writes, reads,
    removes or renames. *)
Definition touched (e : Event) : list string :=
  match e with
  | EvCreate name _ | EvFileClose name _ | EvCopy name _ _
  | EvRemove name _ | EvReadWavInfo name _ => [name]
  | EvRename oldpath newpath _ => [oldpath; newpath]
  | EvRun argv _ => [nth 2 argv ""; List.last argv ""]
  | _ => []
  end.

(** [env] with another answer of the ffmpeg command and of [io.Copy]. *)
Definition with_download (copied ran : option error) (env : Env) : Env :=
  {| utils_CreateFolder := utils_CreateFolder env;
     utils_GenerateUniqueID := utils_GenerateUniqueID env;
     http_Get := http_Get env;
     Body_Close := Body_Close env;
     os_Create := os_Create env;
     File_Close := File_Close env;
     io_Copy := fun _ _ => copied;
     Cmd_Run := fun _ => ran;
     Cmd_leaves_output := Cmd_leaves_output env;
     os_Remove := os_Remove env;
     os_Rename := os_Rename env;
     wav_ReadWavInfo := wav_ReadWavInfo env;
     wav_WavBytesToSamples := wav_WavBytesToSamples env;
     shazam_Spectrogram := shazam_Spectrogram env;
     shazam_ExtractPeaks := shazam_ExtractPeaks env;
     shazam_Fingerprint := shazam_Fingerprint env;
     db_NewDBClient := db_NewDBClient env;
     db_RegisterSong := db_RegisterSong env;
     db_StoreFingerprints := db_StoreFingerprints env;
     json_Unmarshal := json_Unmarshal env |}.

(** ffmpeg does not know the format of what was downloaded. *)
Definition ffmpeg_fails : Env :=
  with_download None (Some "exit status 1") two_ids.



(** ** Reading a run *)

Arguments tmpMP3Path : simpl never.
Arguments finalPathOf : simpl never.
Arguments wavPath : simpl never.
Arguments Errorf : simpl never.
Arguments GoString.FormatInt : simpl never.
Arguments GoString.FormatUint : simpl never.

(** Unfolds a run of [ProcessSongFromURL] down to the answers of the
    environment and splits on each of them. *)
Ltac unfold_run H :=
  unfold run, ProcessSongFromURL, convertToWav, call, defer, fail, return_,
    CreateFolder, GenerateUniqueID, Get, BodyClose, Create, FileClose, Copy,
    Run, Remove, Rename, ReadWavInfo, WavBytesToSamples, Spectrogram,
    ExtractPeaks, Fingerprint, NewDBClient, DBClose, RegisterSong,
    StoreFingerprints, LogError, emit, modify_files,
    mbind, mret, M_mbind, M_mret, M_bind, M_ret in H.

Ltac split_answer H :=
  match type of H with
  | context [match ?x with _ => _ end] =>
      lazymatch x with
      | context [match _ with _ => _ end] => fail
      | _ => destruct x eqn:?
      end
  end.

(** For a run [o] set in the context: one goal for each way the run can
    go, with [o] replaced by its results, files and trace. *)
Ltac run_cases :=
  match goal with
  | o := run (ProcessSongFromURL ?env ?input) ?fs |- _ =>
      let Ho := fresh "Ho" in
      assert (Ho : o = run (ProcessSongFromURL env input) fs) by reflexivity;
      clearbody o;
      unfold_run Ho; cbn in Ho;
      repeat (split_answer Ho; cbn in Ho);
      subst o; unfold results, files, trace in *; cbn [fst snd] in *
  end.

(** Closes [In e tr] for an event that stands in a computed trace. *)
Ltac in_trace := vm_compute; repeat (first [left; reflexivity | right]).

(** Events of a trace, once it is a list of explicit events. *)
Ltac each_event H :=
  cbn in H;
  repeat match type of H with
         | _ \/ _ => destruct H as [H | H]
         | False => destruct H
         end.

(** An explicit list is a subsequence of an explicit trace. *)
Ltac in_order :=
  repeat first [ apply sublist_nil_l
               | apply sublist_skip
               | apply sublist_cons ].

(** The list on the left is the one on the right without its first [n]. *)
Ltac is_end n :=
  match goal with
  | |- _ `suffix_of` ?l => exists (take n l); reflexivity
  end.

(** * Theorems *)

(** ** Paths and numbers *)

Example Join_plain : filepath.Join "songs" "Hey Jude_The Beatles.wav"
                     = "songs/Hey Jude_The Beatles.wav".
Proof. reflexivity. Qed.

Example Join_cleans : filepath.Join "songs" "a/../b_x.wav" = "songs/b_x.wav".
Proof. reflexivity. Qed.

Example Join_escapes : filepath.Join "tmp" "../songs/x_y.mp3" = "songs/x_y.mp3".
Proof. reflexivity. Qed.

Example Ext_mp3 : filepath.Ext "tmp/a.b_c.mp3" = ".mp3".
Proof. reflexivity. Qed.

Example TrimSuffix_mp3 : GoString.TrimSuffix "tmp/a.b_c.mp3" ".mp3" = "tmp/a.b_c".
Proof. reflexivity. Qed.

Example FormatUint_ex : GoString.FormatUint 4294967295 = "4294967295".
Proof. reflexivity. Qed.

Example FormatInt_ex : GoString.FormatInt 404 = "404".
Proof. reflexivity. Qed.

(** ** The download *)

(** C9: when the download of [input.SongURL] completes with a status
    other than 200, [ProcessSongFromURL] returns a nil response and the
    error [received non-200 status code: <status>]; it has created the two
    folders, made the request and closed the body, and nothing else: no
    file is created, nothing is converted, fingerprinted or stored. *)
Theorem non_200_stops_ingestion env input fs url resp :
  let o := run (ProcessSongFromURL env input) fs in
  In (EvGet url (Ok resp)) (trace o) ->
  http.StatusCode resp <> http.StatusOK ->
  results o =
    (None, Some (Errorf "received non-200 status code: "
                        (GoString.FormatInt (http.StatusCode resp)))) /\
  trace o = [EvCreateFolder "tmp" None; EvCreateFolder "songs" None;
             EvGet (SongURL input) (Ok resp); EvBodyClose (Body_Close env)] /\
  files o = fs /\
  Forall (fun e => ingestion_work e = false) (trace o).
Proof.
  intros o Hget Hstatus.
  run_cases; each_event Hget; simplify_eq.
  all: try (exfalso; apply Hstatus; apply Z.eqb_eq;
            match goal with H : negb _ = false |- _ =>
              apply negb_false_iff in H; exact H end).
  repeat split; repeat constructor.
Qed.

Lemma non_200_stops_ingestion_witness :
  let o := run (ProcessSongFromURL
                  (studio 404 (Ok [[1%float]]) one_peak 7%N (Ok 9%N) None None)
                  hey_jude) ∅ in
  results o = (None, Some "received non-200 status code: 404") /\
  trace o = [EvCreateFolder "tmp" None; EvCreateFolder "songs" None;
             EvGet "http://cdn.example/hey.mp3"
                   (Ok {| http.StatusCode := 404;
                          http.Body := [Byte.x49; Byte.x44] |});
             EvBodyClose None] /\
  files o = ∅ /\
  Forall (fun e => ingestion_work e = false) (trace o).
Proof.
  apply (non_200_stops_ingestion
           (studio 404 (Ok [[1%float]]) one_peak 7%N (Ok 9%N) None None)
           hey_jude ∅ "http://cdn.example/hey.mp3"
           {| http.StatusCode := 404; http.Body := [Byte.x49; Byte.x44] |}).
  - in_trace.
  - vm_compute; discriminate.
Defined.

(** ** The two results *)

(** Of the two results exactly one is nil. *)
Lemma results_are_exclusive env input fs :
  let o := run (ProcessSongFromURL env input) fs in
  (exists resp, results o = (Some resp, None)) \/
  (exists err, results o = (None, Some err)).
Proof.
  intros o.
  run_cases; first [left; eexists; reflexivity | right; eexists; reflexivity].
Qed.

(** ** The order of the steps *)

(** C3: in a successful ingestion the steps of the core are taken once
    each and in the order build, extract, generate, registerTrack, put,
    each on what the step before it produced: the peaks are extracted from
    the spectrogram that was built, the fingerprints generated from those
    peaks, and the fingerprints put are the generated ones, after the
    registration has succeeded. *)
Theorem step_order env input fs resp :
  let o := run (ProcessSongFromURL env input) fs in
  (results o).1 = Some resp ->
  core_steps (trace o) = [build; extract; generate; registerTrack; put] /\
  exists samples rate spectrogram duration peaks songID fps registered,
    [EvSpectrogram samples rate (Ok spectrogram);
     EvExtractPeaks spectrogram duration peaks;
     EvFingerprint peaks songID fps;
     EvRegisterSong (Title input) (Artist input) (YoutubeID input)
                    (Ok registered);
     EvStoreFingerprints fps None] `sublist_of` trace o.
Proof.
  intros o Hresp.
  run_cases; try discriminate.
  all: split; [reflexivity | do 8 eexists; in_order].
Qed.

Lemma step_order_witness :
  let o := run (ProcessSongFromURL
                  (studio 200 (Ok [[1%float]]) one_peak 7%N (Ok 9%N) None None)
                  hey_jude) ∅ in
  core_steps (trace o) = [build; extract; generate; registerTrack; put] /\
  exists samples rate spectrogram duration peaks songID fps registered,
    [EvSpectrogram samples rate (Ok spectrogram);
     EvExtractPeaks spectrogram duration peaks;
     EvFingerprint peaks songID fps;
     EvRegisterSong "Hey Jude" "The Beatles" "A_MjCqQoLLA" (Ok registered);
     EvStoreFingerprints fps None] `sublist_of` trace o.
Proof.
  apply (step_order
           (studio 200 (Ok [[1%float]]) one_peak 7%N (Ok 9%N) None None)
           hey_jude ∅
           {| Success := true;
              Message := "Song processed successfully";
              FilePath := "songs/Hey Jude_The Beatles.wav";
              FingerprintID := "9" |}).
  vm_compute; reflexivity.
Defined.

(** ** Failures *)

(** C2, counterexample: the rename of the WAV into [songs] fails, and the
    call returns the success response with a nil error. *)
Lemma failed_rename_is_not_returned :
  ~ surfaces_every_failure rename_fails hey_jude ∅.
Proof.
  intros H.
  destruct (H (EvRename "tmp/Hey Jude_The Beatles.wav"
                        "songs/Hey Jude_The Beatles.wav"
                        (Some "invalid cross-device link")))
    as [err Herr].
  - in_trace.
  - reflexivity.
  - vm_compute in Herr. discriminate Herr.
Qed.

(** C2, amended: when a call whose error the function checks fails
    (creating a folder, the download or its status, creating or writing
    the temporary file, the conversion, reading the WAV, the samples, the
    spectrogram, the store client, the registration, the fingerprints),
    the function returns a nil response and a non-nil error.  A failed
    rename is logged and the success response is returned with a nil
    error all the same. *)
Theorem checked_failures_are_returned env input fs e :
  let o := run (ProcessSongFromURL env input) fs in
  In e (trace o) -> failed e = true ->
  (unchecked e = false -> exists err, results o = (None, Some err)) /\
  (forall oldpath newpath err,
      e = EvRename oldpath newpath (Some err) ->
      In (EvLogError "Error moving file to songs directory" err) (trace o) /\
      exists resp, results o = (Some resp, None)).
Proof.
  intros o Hin Hfailed.
  run_cases; each_event Hin; subst e; cbn in Hfailed.
  all: try discriminate.
  all: try congruence.
  all: split;
    [ first [ intros; eexists; reflexivity | cbn; discriminate ]
    | intros ? ? ? Heq; try discriminate Heq; simplify_eq ].
  all: split; [ cbn; tauto | eexists; reflexivity ].
Qed.

Lemma checked_failures_are_returned_witness :
  let o := run (ProcessSongFromURL
                  (studio 200 (Err "sample rate must be positive") one_peak
                          7%N (Ok 9%N) None None)
                  hey_jude) ∅ in
  let e := EvSpectrogram [0.5%float] 44100
                         (Err "sample rate must be positive") in
  (unchecked e = false -> exists err, results o = (None, Some err)) /\
  (forall oldpath newpath err,
      e = EvRename oldpath newpath (Some err) ->
      In (EvLogError "Error moving file to songs directory" err) (trace o) /\
      exists resp, results o = (Some resp, None)).
Proof.
  apply (checked_failures_are_returned
           (studio 200 (Err "sample rate must be positive") one_peak
                   7%N (Ok 9%N) None None)
           hey_jude ∅).
  - in_trace.
  - reflexivity.
Defined.

(** ** Failures of the store *)

(** C4, counterexample: the store answers [database is locked] and the
    function returns [error storing fingerprints: database is locked],
    another error than the one it received. *)
Lemma store_error_is_wrapped :
  ~ propagates_verbatim store_refuses hey_jude ∅.
Proof.
  intros H.
  destruct (H opStoreFingerprints
              (EvStoreFingerprints
                 [{| shazam.hash := 40; shazam.trackID := 7%N;
                     shazam.anchorTimeOffset := 3 |}]
                 (Some "database is locked"))
              "database is locked") as [Hres _].
  - in_trace.
  - reflexivity.
  - vm_compute in Hres. congruence.
Qed.

(** C4, amended: when [RegisterSong] or [StoreFingerprints] answers with
    an error, the function returns a nil response and a new error, whose
    message is [error registering song: ] or [error storing
    fingerprints: ] followed by the message of the error of the store;
    the operation that failed was called once and not again, and after a
    failed registration no fingerprint is put. *)
Theorem store_failure_is_reported_once env input fs op e err :
  let o := run (ProcessSongFromURL env input) fs in
  In e (trace o) -> store_error op e = Some err ->
  results o = (None, Some (Errorf (store_prefix op) err)) /\
  calls op (trace o) = 1 /\
  (op = opRegisterSong -> calls opStoreFingerprints (trace o) = 0).
Proof.
  intros o Hin Herr.
  run_cases; each_event Hin; subst e; destruct op; cbn in Herr.
  all: try discriminate.
  all: try congruence.
  all: simplify_eq; repeat split; try reflexivity; try discriminate.
Qed.

Lemma store_failure_is_reported_once_witness :
  let o := run (ProcessSongFromURL store_refuses hey_jude) ∅ in
  results o = (None, Some "error storing fingerprints: database is locked") /\
  calls opStoreFingerprints (trace o) = 1 /\
  (opStoreFingerprints = opRegisterSong ->
   calls opStoreFingerprints (trace o) = 0).
Proof.
  apply (store_failure_is_reported_once store_refuses hey_jude ∅
           opStoreFingerprints
           (EvStoreFingerprints
              [{| shazam.hash := 40; shazam.trackID := 7%N;
                  shazam.anchorTimeOffset := 3 |}]
              (Some "database is locked"))
           "database is locked").
  - in_trace.
  - reflexivity.
Defined.

(** ** The identifier in the fingerprints *)

Lemma studio_stamps_trackID status spectrogram peaks uid registered stored
      renamed :
  stamps_trackID
    (studio status spectrogram peaks uid registered stored renamed).
Proof.
  intros ps id. cbn. induction ps; constructor; auto.
Qed.

(** Whatever is put into the store carries the identifier that
    [utils.GenerateUniqueID] answered; the identifier under which the
    store registered the song does not reach the fingerprints. *)
Lemma stored_fingerprints_carry_generated_id env input fs fps r :
  let o := run (ProcessSongFromURL env input) fs in
  stamps_trackID env ->
  In (EvStoreFingerprints fps r) (trace o) ->
  Forall (fun fp => shazam.trackID fp = utils_GenerateUniqueID env) fps.
Proof.
  intros o Hstamp Hin.
  run_cases; each_event Hin; simplify_eq; apply Hstamp.
Qed.

(** C1, at the failing input: the ingestion succeeds, the song is
    registered under 9, which the response reports as [FingerprintID], and
    the one fingerprint that is stored references the track 7. *)
Theorem fingerprint_references_unregistered_id :
  let o := run (ProcessSongFromURL two_ids hey_jude) ∅ in
  results o =
    (Some {| Success := true;
             Message := "Song processed successfully";
             FilePath := "songs/Hey Jude_The Beatles.wav";
             FingerprintID := "9" |}, None) /\
  In (EvRegisterSong "Hey Jude" "The Beatles" "A_MjCqQoLLA" (Ok 9%N))
     (trace o) /\
  In (EvStoreFingerprints
        [{| shazam.hash := 40; shazam.trackID := 7%N;
            shazam.anchorTimeOffset := 3 |}] None)
     (trace o).
Proof.
  split; [vm_compute; reflexivity | split; in_trace].
Qed.

(** ** The contracts of the extraction and of the generation *)





(** ** The response *)

Lemma has_separator_app s t :
  has_separator (s +:+ t) = has_separator s || has_separator t.
Proof.
  induction s as [| c s IH]; [reflexivity |].
  change (String c s +:+ t) with (String c (s +:+ t)).
  cbn [has_separator]. rewrite IH. apply orb_assoc.
Qed.

Lemma elements_no_separator s :
  has_separator s = false -> filepath.elements s = [s].
Proof.
  induction s as [| c s IH]; [reflexivity |].
  cbn [has_separator filepath.elements].
  intros H. apply orb_false_iff in H as [Hc Hs].
  rewrite Hc, (IH Hs). reflexivity.
Qed.

Lemma long_name_is_no_dots s :
  2 < String.length s ->
  String.eqb s "" = false /\ String.eqb s "." = false /\
  String.eqb s ".." = false.
Proof.
  intros Hlen.
  repeat split; apply String.eqb_neq; intros ->; cbn in Hlen; lia.
Qed.

(** A name without separator joins [songs] as it stands. *)
Lemma Join_songs name :
  has_separator name = false -> 2 < String.length name ->
  filepath.Join "songs" name = "songs/" +:+ name.
Proof.
  intros Hsep Hlen.
  destruct (long_name_is_no_dots name Hlen) as (He & Hd & Hdd).
  unfold filepath.Join. rewrite He. cbn [String.eqb Ascii.eqb Bool.eqb].
  unfold filepath.Clean. cbv [String.append].
  cbn [filepath.is_rooted filepath.elements Ascii.eqb filepath.Separator
       Bool.eqb].
  rewrite (elements_no_separator name Hsep).
  cbn -[String.eqb]. rewrite He, Hd, Hdd. cbn. reflexivity.
Qed.

Lemma file_name_has_no_separator title artist ext :
  has_separator title = false -> has_separator artist = false ->
  has_separator ext = false ->
  has_separator (title +:+ "_" +:+ artist +:+ ext) = false.
Proof.
  intros Ht Ha He. rewrite !has_separator_app, Ht, Ha, He. reflexivity.
Qed.

Lemma length_append s t :
  String.length (s +:+ t) = String.length s + String.length t.
Proof.
  induction s as [| c s IH]; [reflexivity |].
  change (String c s +:+ t) with (String c (s +:+ t)).
  cbn [String.length]. rewrite IH. reflexivity.
Qed.

Lemma file_name_is_long title artist :
  2 < String.length (title +:+ "_" +:+ artist +:+ ".wav").
Proof.
  rewrite !length_append. cbn [String.length]. lia.
Qed.

(** C10, counterexample.  First: a file of an earlier ingestion is at
    [songs/Hey Jude_The Beatles.wav], the rename fails, and the file is
    still at the reported path.  Second: for the title [Closer // Further]
    the reported path is the cleaned one,
    [songs/Closer / Further_The Band.wav]. *)
Lemma reported_path_is_cleaned_and_may_exist :
  ~ response_as_reported rename_fails hey_jude
                         {["songs/Hey Jude_The Beatles.wav"]} /\
  ~ response_as_reported two_ids closer ∅.
Proof.
  split; intros H.
  - destruct (H {| Success := true;
                   Message := "Song processed successfully";
                   FilePath := "songs/Hey Jude_The Beatles.wav";
                   FingerprintID := "9" |})
      as (_ & _ & _ & _ & Hfile); [vm_compute; reflexivity |].
    apply (Hfile "tmp/Hey Jude_The Beatles.wav" "invalid cross-device link").
    + in_trace.
    + vm_compute. reflexivity.
  - destruct (H {| Success := true;
                   Message := "Song processed successfully";
                   FilePath := "songs/Closer / Further_The Band.wav";
                   FingerprintID := "9" |})
      as (_ & _ & _ & Hpath & _); [vm_compute; reflexivity |].
    vm_compute in Hpath. congruence.
Qed.

(** C10, amended: whenever [ProcessSongFromURL] returns a response, the
    error is nil, [Success] is true, [Message] is [Song processed
    successfully], [FingerprintID] is the decimal string of the identifier
    that [RegisterSong] returned, and [FilePath] is
    [filepath.Join("songs", "<Title>_<Artist>.wav")], which is
    [songs/<Title>_<Artist>.wav] when neither the title nor the artist has
    a path separator in it.  This holds also when the rename has failed;
    the call has then moved no file: a file is at [FilePath] afterwards
    only if one was there before the call, or if [FilePath] is the path of
    one of the two temporary files of the call. *)
Theorem response_of_success env input fs resp :
  let o := run (ProcessSongFromURL env input) fs in
  (results o).1 = Some resp ->
  (results o).2 = None /\
  Success resp = true /\
  Message resp = "Song processed successfully" /\
  (exists registeredSongID,
      In (EvRegisterSong (Title input) (Artist input) (YoutubeID input)
                         (Ok registeredSongID)) (trace o) /\
      FingerprintID resp = GoString.FormatUint registeredSongID) /\
  FilePath resp =
    filepath.Join "songs" (Title input +:+ "_" +:+ Artist input +:+ ".wav") /\
  (has_separator (Title input) = false ->
   has_separator (Artist input) = false ->
   FilePath resp = songs_path input) /\
  (forall oldpath err,
      In (EvRename oldpath (FilePath resp) (Some err)) (trace o) ->
      FilePath resp ∈ files o ->
      FilePath resp ∈ fs \/ FilePath resp = tmpMP3Path input \/
      FilePath resp = wavPath (tmpMP3Path input)).
Proof.
  intros o Hresp.
  run_cases; try discriminate.
  all: injection Hresp as <-; cbn [Success Message FilePath FingerprintID].
  all: repeat split;
    [ eexists; split; [cbn; tauto | reflexivity]
    | intros Ht Ha; unfold finalPathOf, songs_path;
      apply Join_songs;
      [ apply file_name_has_no_separator; auto | apply file_name_is_long ]
    | intros oldpath err Hin Hfile; each_event Hin; simplify_eq;
      set_unfold in Hfile; tauto ].
Qed.

Lemma response_of_success_witness :
  let o := run (ProcessSongFromURL rename_fails hey_jude)
               {["songs/Hey Jude_The Beatles.wav"]} in
  let path := "songs/Hey Jude_The Beatles.wav" in
  (results o).2 = None /\
  true = true /\
  "Song processed successfully" = "Song processed successfully" /\
  (exists registeredSongID,
      In (EvRegisterSong "Hey Jude" "The Beatles" "A_MjCqQoLLA"
                         (Ok registeredSongID)) (trace o) /\
      "9" = GoString.FormatUint registeredSongID) /\
  path = filepath.Join "songs" ("Hey Jude" +:+ "_" +:+ "The Beatles" +:+ ".wav") /\
  (has_separator "Hey Jude" = false ->
   has_separator "The Beatles" = false ->
   path = songs_path hey_jude) /\
  (forall oldpath err,
      In (EvRename oldpath path (Some err)) (trace o) ->
      path ∈ files o ->
      path ∈ ({["songs/Hey Jude_The Beatles.wav"]} : gset string) \/
      path = tmpMP3Path hey_jude \/
      path = wavPath (tmpMP3Path hey_jude)).
Proof.
  apply (response_of_success rename_fails hey_jude
           {["songs/Hey Jude_The Beatles.wav"]}
           {| Success := true;
              Message := "Song processed successfully";
              FilePath := "songs/Hey Jude_The Beatles.wav";
              FingerprintID := "9" |}).
  vm_compute; reflexivity.
Defined.

(** ** [ProcessSongJSON] *)


Example json_garbage_is_rejected :
  run (ProcessSongJSON service (list_byte_of_string "hello")) ∅ =
  ((None,
    Some "failed to parse JSON input: invalid character 'h' looking for beginning of value"),
   ∅, []).
Proof. vm_compute. reflexivity. Qed.

Example json_without_title_is_rejected :
  run (ProcessSongJSON service (list_byte_of_string untitled_json)) ∅ =
  ((None, Some "title is required"), ∅, []).
Proof. vm_compute. reflexivity. Qed.

Example json_song_is_ingested :
  results (run (ProcessSongJSON service (list_byte_of_string hey_jude_json)) ∅)
  = (Some {| Success := true;
             Message := "Song processed successfully";
             FilePath := "songs/Hey Jude_The Beatles.wav";
             FingerprintID := "9" |}, None).
Proof. vm_compute. reflexivity. Qed.

(** * Further properties *)
(** ** Strings as lists of characters *)

Lemma append_assoc s t u : (s +:+ t) +:+ u = s +:+ (t +:+ u).
Proof.
  induction s as [| c s IH]; [reflexivity |].
  change ((String c s +:+ t) +:+ u) with (String c ((s +:+ t) +:+ u)).
  rewrite IH. reflexivity.
Qed.

Lemma chars_append s t :
  list_ascii_of_string (s +:+ t)
  = list_ascii_of_string s ++ list_ascii_of_string t.
Proof.
  induction s as [| c s IH]; [reflexivity |].
  change (String c s +:+ t) with (String c (s +:+ t)).
  cbn [list_ascii_of_string]. rewrite IH. reflexivity.
Qed.

Lemma string_of_chars_app l k :
  string_of_list_ascii (l ++ k)
  = string_of_list_ascii l +:+ string_of_list_ascii k.
Proof.
  induction l as [| c l IH]; [reflexivity |].
  cbn [app string_of_list_ascii]. rewrite IH. reflexivity.
Qed.

Lemma length_chars s : String.length s = length (list_ascii_of_string s).
Proof.
  induction s as [| c s IH]; [reflexivity |].
  cbn [String.length list_ascii_of_string length]. rewrite IH. reflexivity.
Qed.

(** Two strings that end with suffixes of one length end with the same
    suffix. *)
Lemma append_inj_suffix s1 s2 t1 t2 :
  String.length t1 = String.length t2 ->
  s1 +:+ t1 = s2 +:+ t2 -> s1 = s2 /\ t1 = t2.
Proof.
  intros Hlen Heq.
  apply (f_equal list_ascii_of_string) in Heq.
  rewrite !chars_append in Heq. rewrite !length_chars in Hlen.
  apply app_inj_2 in Heq as [H1 H2]; [| exact Hlen].
  split.
  - rewrite <- (string_of_list_ascii_of_string s1),
            <- (string_of_list_ascii_of_string s2), H1. reflexivity.
  - rewrite <- (string_of_list_ascii_of_string t1),
            <- (string_of_list_ascii_of_string t2), H2. reflexivity.
Qed.

(** ** [strings.TrimSuffix] and [filepath.Ext] *)

Lemma has_prefix_chars_app p s :
  GoString.has_prefix_chars p (p ++ s) = true.
Proof.
  induction p as [| c p IH]; [reflexivity |].
  cbn [app GoString.has_prefix_chars]. rewrite Ascii.eqb_refl, IH. reflexivity.
Qed.

Lemma HasSuffix_append s suffix : GoString.HasSuffix (s +:+ suffix) suffix = true.
Proof.
  unfold GoString.HasSuffix. rewrite chars_append, rev_app_distr.
  apply has_prefix_chars_app.
Qed.

(** Trimming the suffix that was appended gives the string back. *)
Lemma TrimSuffix_append s suffix : GoString.TrimSuffix (s +:+ suffix) suffix = s.
Proof.
  unfold GoString.TrimSuffix. rewrite HasSuffix_append.
  rewrite !length_chars, chars_append, length_app, Nat.add_sub.
  rewrite take_app_length. apply string_of_list_ascii_of_string.
Qed.

Lemma ext_from_end_is_suffix r acc :
  exists pre, rev r ++ acc = pre ++ filepath.ext_from_end r acc.
Proof.
  revert acc. induction r as [| c r IH]; intros acc.
  - exists acc. cbn. rewrite app_nil_r. reflexivity.
  - cbn [filepath.ext_from_end rev].
    destruct (Ascii.eqb c filepath.Separator).
    + eexists. rewrite app_nil_r. reflexivity.
    + destruct (Ascii.eqb c "."%char).
      * exists (rev r). rewrite <- app_assoc. reflexivity.
      * destruct (IH (c :: acc)) as [pre Hpre].
        exists pre. rewrite <- app_assoc. exact Hpre.
Qed.

(** The extension of a path is a suffix of it. *)
Lemma Ext_is_suffix path : exists stem, path = stem +:+ filepath.Ext path.
Proof.
  unfold filepath.Ext.
  destruct (ext_from_end_is_suffix (rev (list_ascii_of_string path)) [])
    as [pre Hpre].
  rewrite rev_involutive, app_nil_r in Hpre.
  exists (string_of_list_ascii pre).
  rewrite <- string_of_chars_app, <- Hpre.
  symmetry. apply string_of_list_ascii_of_string.
Qed.

(** The extension of whatever ends in [.mp3] is [.mp3]. *)
Lemma Ext_mp3_suffix stem : filepath.Ext (stem +:+ ".mp3") = ".mp3".
Proof.
  unfold filepath.Ext. rewrite chars_append, rev_app_distr. reflexivity.
Qed.

(** [wavPath] puts [.wav] in the place of the extension. *)
Lemma wavPath_replaces_extension path :
  exists stem, path = stem +:+ filepath.Ext path /\
               wavPath path = stem +:+ ".wav".
Proof.
  destruct (Ext_is_suffix path) as [stem Hstem].
  exists stem. split; [exact Hstem |].
  unfold wavPath. rewrite Hstem at 1. rewrite TrimSuffix_append. reflexivity.
Qed.

Lemma wavPath_mp3 stem : wavPath (stem +:+ ".mp3") = stem +:+ ".wav".
Proof.
  unfold wavPath. rewrite Ext_mp3_suffix, TrimSuffix_append. reflexivity.
Qed.

(** ** [filepath.Join] keeps the end of the last element *)

Lemma elements_append_last x suffix :
  has_separator suffix = false ->
  exists init l,
    filepath.elements x = init ++ [l] /\
    filepath.elements (x +:+ suffix) = init ++ [l +:+ suffix].
Proof.
  intros Hsuffix. induction x as [| c x (init & l & Hx & Hxs)].
  - exists [], EmptyString. split; [reflexivity |].
    apply elements_no_separator, Hsuffix.
  - change (String c x +:+ suffix) with (String c (x +:+ suffix)).
    cbn [filepath.elements]. rewrite Hx, Hxs.
    destruct (Ascii.eqb c filepath.Separator).
    + exists (EmptyString :: init), l. split; reflexivity.
    + destruct init as [| i init].
      * exists [], (String c l). split; reflexivity.
      * exists (String c i :: init), l. split; reflexivity.
Qed.

Lemma clean_elements_last rooted es e stack :
  kept_element e ->
  exists kept, filepath.clean_elements rooted (es ++ [e]) stack = kept ++ [e].
Proof.
  intros (He & Hd & Hdd). revert stack.
  induction es as [| a es IH]; intros stack.
  - exists (rev stack). cbn. rewrite He, Hd, Hdd. reflexivity.
  - cbn [app filepath.clean_elements].
    destruct (String.eqb a "" || String.eqb a "."); [apply IH |].
    destruct (String.eqb a ".."); [| apply IH].
    destruct stack as [| top rest]; [destruct rooted; apply IH |].
    destruct (String.eqb top ".."); apply IH.
Qed.

Lemma join_elements_last es e :
  exists pre, filepath.join_elements (es ++ [e]) = pre +:+ e.
Proof.
  induction es as [| a es (pre & IH)].
  - exists EmptyString. reflexivity.
  - cbn [app filepath.join_elements]. rewrite IH.
    destruct (es ++ [e]) eqn:Hes; [destruct es; discriminate Hes |].
    exists (a +:+ "/" +:+ pre). rewrite !append_assoc. reflexivity.
Qed.

Lemma long_is_kept e : 2 < String.length e -> kept_element e.
Proof. apply long_name_is_no_dots. Qed.

(** Joining a directory name with a file name that ends in an extension
    of three letters gives a path that ends in that extension. *)
Lemma Join_keeps_extension dir name ext :
  has_separator dir = false -> String.eqb dir "" = false ->
  has_separator ext = false -> String.length ext = 4 ->
  exists stem, filepath.Join dir (name +:+ ext) = stem +:+ ext.
Proof.
  intros Hdir Hnonempty Hext Hlen.
  assert (Hname : String.eqb (name +:+ ext) "" = false).
  { apply long_name_is_no_dots. rewrite length_append. lia. }
  unfold filepath.Join. rewrite Hnonempty, Hname.
  unfold filepath.Clean.
  assert (Hrooted : filepath.is_rooted (dir +:+ "/" +:+ name +:+ ext) = false).
  { destruct dir as [| c dir]; [discriminate Hnonempty |].
    cbn in Hdir |- *. apply orb_false_iff in Hdir as [Hc _]. exact Hc. }
  rewrite Hrooted.
  replace (dir +:+ "/" +:+ name +:+ ext)
    with ((dir +:+ "/" +:+ name) +:+ ext) by (rewrite !append_assoc; reflexivity).
  destruct (elements_append_last (dir +:+ "/" +:+ name) ext Hext)
    as (init & l & _ & ->).
  destruct (clean_elements_last false init (l +:+ ext) []) as [kept ->].
  { apply long_is_kept. rewrite length_append. lia. }
  destruct (join_elements_last kept (l +:+ ext)) as [pre ->].
  assert (Hbody : String.eqb (pre +:+ l +:+ ext) "" = false).
  { apply long_name_is_no_dots. rewrite !length_append. lia. }
  rewrite Hbody. exists (pre +:+ l). rewrite append_assoc. reflexivity.
Qed.

(** The temporary MP3 is named [....mp3] and the final file [....wav],
    whatever the title and the artist are. *)
Lemma tmpMP3Path_ends_in_mp3 input :
  exists stem, tmpMP3Path input = stem +:+ ".mp3".
Proof.
  unfold tmpMP3Path.
  replace (Title input +:+ "_" +:+ Artist input +:+ ".mp3")
    with ((Title input +:+ "_" +:+ Artist input) +:+ ".mp3")
    by (rewrite !append_assoc; reflexivity).
  apply Join_keeps_extension; reflexivity.
Qed.

Lemma finalPathOf_ends_in_wav input :
  exists stem, finalPathOf input = stem +:+ ".wav".
Proof.
  unfold finalPathOf.
  replace (Title input +:+ "_" +:+ Artist input +:+ ".wav")
    with ((Title input +:+ "_" +:+ Artist input) +:+ ".wav")
    by (rewrite !append_assoc; reflexivity).
  apply Join_keeps_extension; reflexivity.
Qed.

Lemma wav_is_not_mp3 s1 s2 : s1 +:+ ".wav" <> s2 +:+ ".mp3".
Proof.
  intros H. apply append_inj_suffix in H as [_ H]; [| reflexivity].
  congruence.
Qed.

(** The converted file is another file than the downloaded one. *)
Lemma tmpWav_is_not_tmpMP3 input :
  wavPath (tmpMP3Path input) <> tmpMP3Path input.
Proof.
  destruct (tmpMP3Path_ends_in_mp3 input) as [stem ->].
  rewrite wavPath_mp3. apply wav_is_not_mp3.
Qed.

Lemma finalPath_is_not_tmpMP3 input : finalPathOf input <> tmpMP3Path input.
Proof.
  destruct (tmpMP3Path_ends_in_mp3 input) as [s2 ->].
  destruct (finalPathOf_ends_in_wav input) as [s1 ->].
  apply wav_is_not_mp3.
Qed.

(** Without separators in the title and the artist the three paths are
    what they look like. *)
Lemma Join_tmp name :
  has_separator name = false -> 2 < String.length name ->
  filepath.Join "tmp" name = "tmp/" +:+ name.
Proof.
  intros Hsep Hlen.
  destruct (long_name_is_no_dots name Hlen) as (He & Hd & Hdd).
  unfold filepath.Join. rewrite He. cbn [String.eqb Ascii.eqb Bool.eqb].
  unfold filepath.Clean. cbv [String.append].
  cbn [filepath.is_rooted filepath.elements Ascii.eqb filepath.Separator
       Bool.eqb].
  rewrite (elements_no_separator name Hsep).
  cbn -[String.eqb]. rewrite He, Hd, Hdd. cbn. reflexivity.
Qed.

(** ** [convertToWav] *)

(** X1: [convertToWav] runs the ffmpeg command once, from the input path
    to the path that has [.wav] in the place of the extension of the input
    ([filepath.Ext]: [.wav] is appended when the last element has no dot).
    When the command succeeds that path is returned; when it fails the
    error is [failed to convert to WAV: ...]. *)
Theorem convertToWav_replaces_extension env inputPath fs :
  let o := run (convertToWav env inputPath) fs in
  exists stem,
    inputPath = stem +:+ filepath.Ext inputPath /\
    let outputPath := stem +:+ ".wav" in
    let answer := Cmd_Run env (ffmpeg_command inputPath outputPath) in
    trace o = [EvRun (ffmpeg_command inputPath outputPath) answer] /\
    match answer with
    | None => results o = Ok outputPath
    | Some err => results o = Err ("failed to convert to WAV: " +:+ err)
    end.
Proof.
  intros o; subst o.
  destruct (wavPath_replaces_extension inputPath) as (stem & Hstem & Hwav).
  exists stem. split; [exact Hstem |]. cbn zeta. rewrite <- Hwav.
  unfold convertToWav, Run, run, results, files, trace, ffmpeg_command,
    return_, emit, modify_files, mbind, mret, M_mbind, M_mret, M_bind, M_ret.
  destruct (Cmd_Run env _); [destruct (Cmd_leaves_output env _) |];
    cbn; auto.
Qed.

(** X2: the path that [convertToWav] returns is its input path exactly
    when the extension of the input is already [.wav]: ffmpeg is then told
    to write onto the file it reads. *)
Theorem convertToWav_returns_its_input_iff_wav env inputPath fs outputPath :
  results (run (convertToWav env inputPath) fs) = Ok outputPath ->
  outputPath = inputPath <-> filepath.Ext inputPath = ".wav".
Proof.
  intros Hout.
  assert (Hpath : outputPath = wavPath inputPath).
  { revert Hout.
    unfold convertToWav, Run, run, results, return_, emit, modify_files,
      mbind, mret, M_mbind, M_mret, M_bind, M_ret.
    destruct (Cmd_Run env _); [destruct (Cmd_leaves_output env _) |];
      cbn; congruence. }
  destruct (wavPath_replaces_extension inputPath) as (stem & Hstem & Hwav).
  rewrite Hpath, Hwav. split.
  - intros H. rewrite Hstem in H at 1.
    apply (inj (String.app stem)) in H. congruence.
  - intros H. rewrite Hstem at 1. rewrite H. reflexivity.
Qed.

Lemma convertToWav_returns_its_input_iff_wav_witness :
  "tmp/take one.wav" = "tmp/take one.wav"
  <-> filepath.Ext "tmp/take one.wav" = ".wav".
Proof.
  apply (convertToWav_returns_its_input_iff_wav
           two_ids "tmp/take one.wav" ∅ "tmp/take one.wav").
  vm_compute. reflexivity.
Defined.

(** ** The conversion inside the ingestion *)

(** X3: whenever the ingestion runs ffmpeg, it does so once, from the
    temporary MP3, whose name ends in [.mp3] whatever the title and the
    artist are, to the same name with [.wav] in the place of [.mp3]: the
    command never writes onto the downloaded file. *)
Theorem conversion_spares_the_download env input fs argv r :
  let o := run (ProcessSongFromURL env input) fs in
  In (EvRun argv r) (trace o) ->
  exists stem,
    tmpMP3Path input = stem +:+ ".mp3" /\
    argv = ffmpeg_command (stem +:+ ".mp3") (stem +:+ ".wav") /\
    stem +:+ ".wav" <> stem +:+ ".mp3" /\
    count (fun e => match e with EvRun _ _ => true | _ => false end)
          (trace o) = 1.
Proof.
  intros o Hrun.
  destruct (tmpMP3Path_ends_in_mp3 input) as [stem Hstem].
  exists stem. split; [exact Hstem |].
  split; [| split; [apply wav_is_not_mp3 |]].
  - run_cases; each_event Hrun; simplify_eq.
    all: rewrite Hstem, wavPath_mp3; reflexivity.
  - run_cases; each_event Hrun; simplify_eq; reflexivity.
Qed.

Lemma conversion_spares_the_download_witness :
  let o := run (ProcessSongFromURL ffmpeg_fails hey_jude) ∅ in
  exists stem,
    tmpMP3Path hey_jude = stem +:+ ".mp3" /\
    ffmpeg_command "tmp/Hey Jude_The Beatles.mp3"
                   "tmp/Hey Jude_The Beatles.wav"
    = ffmpeg_command (stem +:+ ".mp3") (stem +:+ ".wav") /\
    stem +:+ ".wav" <> stem +:+ ".mp3" /\
    count (fun e => match e with EvRun _ _ => true | _ => false end)
          (trace o) = 1.
Proof.
  apply (conversion_spares_the_download ffmpeg_fails hey_jude ∅
           (ffmpeg_command "tmp/Hey Jude_The Beatles.mp3"
                           "tmp/Hey Jude_The Beatles.wav")
           (Some "exit status 1")).
  in_trace.
Defined.

(** ** The deferred calls *)

(** A trace cut [k] calls before its end. *)
Lemma cut_before_cleanup k (tr deferred : list Event) :
  Forall (fun e => cleanup e = false) (take (length tr - k) tr) ->
  drop (length tr - k) tr `suffix_of` deferred ->
  exists work tidy,
    tr = work ++ tidy /\
    Forall (fun e => cleanup e = false) work /\
    tidy `suffix_of` deferred.
Proof.
  intros Hwork Htidy.
  exists (take (length tr - k) tr), (drop (length tr - k) tr).
  split; [symmetry; apply take_drop | split; assumption].
Qed.

(** X4: in every run the deferred calls come after all other calls and in
    the reverse of the order in which they were deferred: the trace is the
    work followed by an end of [dbClient.Close], [os.Remove] of the
    temporary MP3, [out.Close], [resp.Body.Close]. *)
Theorem deferred_calls_run_last env input fs :
  let o := run (ProcessSongFromURL env input) fs in
  exists work tidy,
    trace o = work ++ tidy /\
    Forall (fun e => cleanup e = false) work /\
    tidy `suffix_of` deferred_calls env input.
Proof.
  intros o. unfold deferred_calls.
  run_cases.
  all: first
    [ apply (cut_before_cleanup 4); cbn; [solve [repeat constructor] | is_end 0]
    | apply (cut_before_cleanup 3); cbn; [solve [repeat constructor] | is_end 1]
    | apply (cut_before_cleanup 2); cbn; [solve [repeat constructor] | is_end 2]
    | apply (cut_before_cleanup 1); cbn; [solve [repeat constructor] | is_end 3]
    | apply (cut_before_cleanup 0); cbn; [solve [repeat constructor] | is_end 4] ].
Qed.

(** X5: every resource is released once when it was acquired and never
    otherwise.  The body is closed when the request returned a response
    (whatever its status), the file when it was created, the store client
    when it was opened; the removal of the temporary MP3 is deferred only
    once the conversion has succeeded. *)
Theorem resources_are_released_once env input fs res :
  let o := run (ProcessSongFromURL env input) fs in
  count (releases res) (trace o) = count (acquires res) (trace o) /\
  count (acquires res) (trace o) <= 1.
Proof.
  intros o. run_cases; destruct res; cbn; split; (reflexivity || lia).
Qed.

(** X6: when the write or the conversion of the downloaded file fails, the
    function returns an error, the temporary MP3 is not removed and stays
    where it was created. *)
Theorem unusable_download_is_left_behind env input fs e :
  let o := run (ProcessSongFromURL env input) fs in
  In e (trace o) -> download_unusable e = true ->
  (exists err, results o = (None, Some err)) /\
  count (releases theDownload) (trace o) = 0 /\
  tmpMP3Path input ∈ files o.
Proof.
  intros o Hin Hbad.
  run_cases; each_event Hin; subst e; try discriminate Hbad.
  all: split; [eexists; reflexivity | split; [reflexivity | set_solver]].
Qed.

Lemma unusable_download_is_left_behind_witness :
  let o := run (ProcessSongFromURL ffmpeg_fails hey_jude) ∅ in
  (exists err, results o = (None, Some err)) /\
  count (releases theDownload) (trace o) = 0 /\
  tmpMP3Path hey_jude ∈ files o.
Proof.
  apply (unusable_download_is_left_behind ffmpeg_fails hey_jude ∅
           (EvRun (ffmpeg_command "tmp/Hey Jude_The Beatles.mp3"
                                  "tmp/Hey Jude_The Beatles.wav")
                  (Some "exit status 1"))).
  - in_trace.
  - reflexivity.
Defined.

(** ** The files that a run leaves *)

(** X7: once ffmpeg has produced the WAV, the file stays at its temporary
    path unless the rename at the end succeeds: when a later step fails,
    or the rename itself, nothing removes it. *)
Theorem converted_file_stays_unless_renamed env input fs argv :
  let o := run (ProcessSongFromURL env input) fs in
  In (EvRun argv None) (trace o) ->
  (forall oldpath newpath, ~ In (EvRename oldpath newpath None) (trace o)) ->
  wavPath (tmpMP3Path input) ∈ files o.
Proof.
  intros o Hrun Hnot.
  pose proof (tmpWav_is_not_tmpMP3 input) as Hdiff.
  run_cases; each_event Hrun; simplify_eq.
  all: try solve [exfalso; eapply Hnot; cbn;
                  repeat first [left; reflexivity | right]].
  all: set_unfold; intuition congruence.
Qed.

Lemma converted_file_stays_unless_renamed_witness :
  let o := run (ProcessSongFromURL store_refuses hey_jude) ∅ in
  wavPath (tmpMP3Path hey_jude) ∈ files o.
Proof.
  apply (converted_file_stays_unless_renamed store_refuses hey_jude ∅
           (ffmpeg_command "tmp/Hey Jude_The Beatles.mp3"
                           "tmp/Hey Jude_The Beatles.wav")).
  - in_trace.
  - intros oldpath newpath H. vm_compute in H.
    repeat match type of H with
           | _ \/ _ => destruct H as [H | H]
           | False => destruct H
           | _ = _ => congruence
           end.
Defined.

(** X8: when the rename succeeds, the file that the response reports is
    there after the call, whether or not the temporary MP3 could be
    removed. *)
Theorem renamed_file_is_at_the_reported_path env input fs oldpath newpath resp :
  let o := run (ProcessSongFromURL env input) fs in
  In (EvRename oldpath newpath None) (trace o) ->
  (results o).1 = Some resp ->
  newpath = FilePath resp /\ FilePath resp ∈ files o.
Proof.
  intros o Hrename Hresp.
  pose proof (finalPath_is_not_tmpMP3 input) as Hdiff.
  run_cases; each_event Hrename; simplify_eq.
  all: cbn [FilePath]; split; [reflexivity | set_unfold; intuition congruence].
Qed.

Lemma renamed_file_is_at_the_reported_path_witness :
  let o := run (ProcessSongFromURL two_ids hey_jude) ∅ in
  "songs/Hey Jude_The Beatles.wav" = "songs/Hey Jude_The Beatles.wav" /\
  "songs/Hey Jude_The Beatles.wav" ∈ files o.
Proof.
  apply (renamed_file_is_at_the_reported_path two_ids hey_jude ∅
           "tmp/Hey Jude_The Beatles.wav" "songs/Hey Jude_The Beatles.wav"
           {| Success := true;
              Message := "Song processed successfully";
              FilePath := "songs/Hey Jude_The Beatles.wav";
              FingerprintID := "9" |}).
  - in_trace.
  - vm_compute. reflexivity.
Defined.

(** X9: when the rename and the removal of the temporary MP3 both
    succeed, the call has added one file, the final one, and has left
    neither temporary file: the files are those from before, without
    whatever was at the two temporary paths, and the final file. *)
Theorem successful_ingestion_leaves_one_file env input fs oldpath newpath name :
  let o := run (ProcessSongFromURL env input) fs in
  In (EvRename oldpath newpath None) (trace o) ->
  In (EvRemove name None) (trace o) ->
  files o =
    fs ∖ {[tmpMP3Path input; wavPath (tmpMP3Path input)]}
       ∪ {[finalPathOf input]}.
Proof.
  intros o Hrename Hremove.
  pose proof (finalPath_is_not_tmpMP3 input) as Hdiff.
  run_cases; each_event Hrename; simplify_eq; each_event Hremove; simplify_eq.
  apply set_eq. intros x. set_unfold.
  destruct (decide (x = finalPathOf input)) as [-> | Hx]; [intuition congruence |].
  destruct (decide (x = tmpMP3Path input)); intuition congruence.
Qed.

Lemma successful_ingestion_leaves_one_file_witness :
  let o := run (ProcessSongFromURL two_ids hey_jude)
               {["tmp/Hey Jude_The Beatles.wav"; "songs/Yesterday.wav"]} in
  files o =
    ({["tmp/Hey Jude_The Beatles.wav"; "songs/Yesterday.wav"]} : gset string)
      ∖ {[tmpMP3Path hey_jude; wavPath (tmpMP3Path hey_jude)]}
      ∪ {[finalPathOf hey_jude]}.
Proof.
  apply (successful_ingestion_leaves_one_file two_ids hey_jude
           {["tmp/Hey Jude_The Beatles.wav"; "songs/Yesterday.wav"]}
           "tmp/Hey Jude_The Beatles.wav" "songs/Hey Jude_The Beatles.wav"
           "tmp/Hey Jude_The Beatles.mp3").
  - in_trace.
  - in_trace.
Defined.

(** ** The store *)

(** X10: the store is opened only when the whole audio path has
    succeeded: the download answered 200, its body was written, ffmpeg
    converted it, the WAV was read, its data gave samples and the samples a
    spectrogram.  A failure anywhere before leaves the store untouched. *)
Theorem store_is_opened_after_the_audio env input fs r :
  let o := run (ProcessSongFromURL env input) fs in
  In (EvNewDBClient r) (trace o) ->
  exists resp wavInfo samples spectrogram,
    http.StatusCode resp = http.StatusOK /\
    [EvGet (SongURL input) (Ok resp);
     EvCopy (tmpMP3Path input) (http.Body resp) None;
     EvRun (ffmpeg_command (tmpMP3Path input) (wavPath (tmpMP3Path input)))
           None;
     EvReadWavInfo (wavPath (tmpMP3Path input)) (Ok wavInfo);
     EvWavBytesToSamples (wav.Data wavInfo) (Ok samples);
     EvSpectrogram samples (wav.SampleRate wavInfo) (Ok spectrogram);
     EvNewDBClient r] `sublist_of` trace o.
Proof.
  intros o Hopen.
  run_cases; each_event Hopen; simplify_eq.
  all: do 4 eexists; split;
    [ apply Z.eqb_eq;
      match goal with H : negb _ = false |- _ =>
        apply negb_false_iff in H; exact H end
    | unfold ffmpeg_command; in_order ].
Qed.

Lemma store_is_opened_after_the_audio_witness :
  let o := run (ProcessSongFromURL store_refuses hey_jude) ∅ in
  exists resp wavInfo samples spectrogram,
    http.StatusCode resp = http.StatusOK /\
    [EvGet (SongURL hey_jude) (Ok resp);
     EvCopy (tmpMP3Path hey_jude) (http.Body resp) None;
     EvRun (ffmpeg_command (tmpMP3Path hey_jude)
                           (wavPath (tmpMP3Path hey_jude))) None;
     EvReadWavInfo (wavPath (tmpMP3Path hey_jude)) (Ok wavInfo);
     EvWavBytesToSamples (wav.Data wavInfo) (Ok samples);
     EvSpectrogram samples (wav.SampleRate wavInfo) (Ok spectrogram);
     EvNewDBClient None] `sublist_of` trace o.
Proof.
  apply (store_is_opened_after_the_audio store_refuses hey_jude ∅ None).
  in_trace.
Defined.

(** X11: when the store refuses the fingerprints, the song stays
    registered: after the failed [StoreFingerprints] the function logs the
    error and runs its four deferred calls, and nothing else; it does not
    call the store again and does not move the converted file. *)
Theorem failed_put_is_not_undone env input fs fps err :
  let o := run (ProcessSongFromURL env input) fs in
  In (EvStoreFingerprints fps (Some err)) (trace o) ->
  exists before registeredSongID,
    trace o =
      before ++ [EvStoreFingerprints fps (Some err);
                 EvLogError "Error storing fingerprints" err]
             ++ deferred_calls env input /\
    In (EvRegisterSong (Title input) (Artist input) (YoutubeID input)
                       (Ok registeredSongID)) before.
Proof.
  intros o Hput. unfold deferred_calls.
  run_cases; each_event Hput; simplify_eq.
  all: match goal with
       | |- exists before _, ?tr = _ /\ _ =>
           exists (take (length tr - 6) tr)
       end; eexists; split; [reflexivity | cbn; tauto].
Qed.

Lemma failed_put_is_not_undone_witness :
  let o := run (ProcessSongFromURL store_refuses hey_jude) ∅ in
  exists before registeredSongID,
    trace o =
      before ++ [EvStoreFingerprints the_fingerprints
                                     (Some "database is locked");
                 EvLogError "Error storing fingerprints" "database is locked"]
             ++ deferred_calls store_refuses hey_jude /\
    In (EvRegisterSong (Title hey_jude) (Artist hey_jude) (YoutubeID hey_jude)
                       (Ok registeredSongID)) before.
Proof.
  apply (failed_put_is_not_undone store_refuses hey_jude ∅ the_fingerprints
                                  "database is locked").
  in_trace.
Defined.

(** ** The log *)

(** X12: a run logs at most one error.  What is logged is the error that
    is returned, wrapped: the returned message is the logged message with
    a small initial, a colon, and the message of the logged error.  The one
    exception is the failed rename, which is logged while the call
    succeeds. *)
Theorem logged_error_is_the_returned_one env input fs msg err :
  let o := run (ProcessSongFromURL env input) fs in
  In (EvLogError msg err) (trace o) ->
  count is_log (trace o) = 1 /\
  (if String.eqb msg "Error moving file to songs directory"
   then exists resp, results o = (Some resp, None)
   else results o = (None, Some (Errorf (returned_prefix msg) err))).
Proof.
  intros o Hlog.
  run_cases; each_event Hlog; simplify_eq.
  all: split; [reflexivity |]; cbn;
    first [reflexivity | eexists; reflexivity].
Qed.

Lemma logged_error_is_the_returned_one_witness :
  let o := run (ProcessSongFromURL ffmpeg_fails hey_jude) ∅ in
  count is_log (trace o) = 1 /\
  (if String.eqb "Error converting to WAV"
                 "Error moving file to songs directory"
   then exists resp, results o = (Some resp, None)
   else results o =
        (None, Some (Errorf (returned_prefix "Error converting to WAV")
                            "failed to convert to WAV: exit status 1"))).
Proof.
  apply (logged_error_is_the_returned_one ffmpeg_fails hey_jude ∅
           "Error converting to WAV"
           "failed to convert to WAV: exit status 1").
  in_trace.
Defined.

(** X13: an error is logged exactly when the run got as far as running
    ffmpeg and something failed from there on, the rename included.  The
    failures before that (a folder, the request, the status, the temporary
    file, the copy) are returned without a log entry, and a run without a
    failure logs nothing. *)
Theorem errors_are_logged_from_the_conversion_on env input fs :
  let o := run (ProcessSongFromURL env input) fs in
  (exists msg err, In (EvLogError msg err) (trace o)) <->
  (exists argv r e,
      In (EvRun argv r) (trace o) /\ In e (trace o) /\ failed e = true /\
      cleanup e = false).
Proof.
  intros o. split.
  - intros (msg & err & Hlog).
    run_cases; each_event Hlog; simplify_eq.
    all: do 2 eexists.
    all: match goal with
         | |- context [EvReadWavInfo ?p (Err ?e)] =>
             exists (EvReadWavInfo p (Err e))
         | |- context [EvWavBytesToSamples ?p (Err ?e)] =>
             exists (EvWavBytesToSamples p (Err e))
         | |- context [EvSpectrogram ?p ?q (Err ?e)] =>
             exists (EvSpectrogram p q (Err e))
         | |- context [EvNewDBClient (Some ?e)] =>
             exists (EvNewDBClient (Some e))
         | |- context [EvRegisterSong ?a ?b ?c (Err ?e)] =>
             exists (EvRegisterSong a b c (Err e))
         | |- context [EvStoreFingerprints ?a (Some ?e)] =>
             exists (EvStoreFingerprints a (Some e))
         | |- context [EvRename ?a ?b (Some ?e)] =>
             exists (EvRename a b (Some e))
         | |- context [EvRun ?a (Some ?e)] => exists (EvRun a (Some e))
         end.
    all: split; [cbn; repeat first [left; reflexivity | right] |].
    all: split; [cbn; repeat first [left; reflexivity | right] |].
    all: split; reflexivity.
  - intros (argv & r & e & Hrun & Hin & Hfailed & Hwork).
    run_cases; each_event Hrun; simplify_eq;
      each_event Hin; subst e; cbn in Hfailed, Hwork; try discriminate;
      try congruence.
    all: do 2 eexists; cbn; repeat first [left; reflexivity | right].
Qed.

(** ** The paths *)

Lemma mp3_name_is_long title artist :
  2 < String.length (title +:+ "_" +:+ artist +:+ ".mp3").
Proof.
  rewrite !length_append. cbn [String.length]. lia.
Qed.

(** Without a separator in the title and the artist, the temporary paths
    are [tmp/<Title>_<Artist>.mp3] and [tmp/<Title>_<Artist>.wav]. *)
Lemma plain_tmpMP3Path input :
  has_separator (Title input) = false ->
  has_separator (Artist input) = false ->
  tmpMP3Path input = "tmp/" +:+ Title input +:+ "_" +:+ Artist input +:+ ".mp3".
Proof.
  intros Ht Ha. unfold tmpMP3Path. apply Join_tmp.
  - apply file_name_has_no_separator; auto.
  - apply mp3_name_is_long.
Qed.

Lemma plain_tmpWavPath input :
  has_separator (Title input) = false ->
  has_separator (Artist input) = false ->
  wavPath (tmpMP3Path input)
  = "tmp/" +:+ Title input +:+ "_" +:+ Artist input +:+ ".wav".
Proof.
  intros Ht Ha. rewrite (plain_tmpMP3Path input Ht Ha).
  replace ("tmp/" +:+ Title input +:+ "_" +:+ Artist input +:+ ".mp3")
    with (("tmp/" +:+ Title input +:+ "_" +:+ Artist input) +:+ ".mp3")
    by (rewrite !append_assoc; reflexivity).
  rewrite wavPath_mp3, !append_assoc. reflexivity.
Qed.

(** X14: when neither the title nor the artist has a path separator in
    it, every file that a run creates, writes, converts, reads, removes or
    renames is one of [tmp/<Title>_<Artist>.mp3],
    [tmp/<Title>_<Artist>.wav] and [songs/<Title>_<Artist>.wav]. *)
Theorem file_operations_are_confined env input fs e path :
  let o := run (ProcessSongFromURL env input) fs in
  let name := Title input +:+ "_" +:+ Artist input in
  has_separator (Title input) = false ->
  has_separator (Artist input) = false ->
  In e (trace o) -> In path (touched e) ->
  path = "tmp/" +:+ name +:+ ".mp3" \/
  path = "tmp/" +:+ name +:+ ".wav" \/
  path = "songs/" +:+ name +:+ ".wav".
Proof.
  intros o name Ht Ha Hin Hpath. subst name. rewrite !append_assoc.
  rewrite <- (plain_tmpMP3Path input Ht Ha), <- (plain_tmpWavPath input Ht Ha).
  assert (Hfinal : finalPathOf input = songs_path input).
  { unfold finalPathOf, songs_path. apply Join_songs.
    - apply file_name_has_no_separator; auto.
    - apply file_name_is_long. }
  change ("songs/" +:+ Title input +:+ "_" +:+ Artist input +:+ ".wav")
    with (songs_path input).
  rewrite <- Hfinal. clear Hfinal.
  run_cases; each_event Hin; subst e; each_event Hpath; subst path; tauto.
Qed.

Lemma file_operations_are_confined_witness :
  let o := run (ProcessSongFromURL two_ids hey_jude) ∅ in
  let name := "Hey Jude" +:+ "_" +:+ "The Beatles" in
  "tmp/Hey Jude_The Beatles.wav" = "tmp/" +:+ name +:+ ".mp3" \/
  "tmp/Hey Jude_The Beatles.wav" = "tmp/" +:+ name +:+ ".wav" \/
  "tmp/Hey Jude_The Beatles.wav" = "songs/" +:+ name +:+ ".wav".
Proof.
  apply (file_operations_are_confined two_ids hey_jude ∅
           (EvRename "tmp/Hey Jude_The Beatles.wav"
                     "songs/Hey Jude_The Beatles.wav" None)
           "tmp/Hey Jude_The Beatles.wav").
  - reflexivity.
  - reflexivity.
  - in_trace.
  - in_trace.
Defined.

(** ** [ProcessSongJSON] and the ingestion together *)

(** A call whose result is returned at once is the callee's run. *)
Lemma run_call_return {R} (body : M R R) fs :
  run (r ← call body; return_ r) fs = run body fs.
Proof.
  unfold run, call, return_, mbind, M_mbind, M_bind.
  destruct (body fs) as [[[r | r] fs1] es]; cbn; rewrite app_nil_r; reflexivity.
Qed.

(** X15: a response from [ProcessSongJSON] means that the bytes decoded
    to an input whose [song_url], [title] and [artist] are not empty
    ([youtube_id] and [duration] may be), that this URL was requested and
    answered 200, that the song was registered under the decoded title,
    artist and YouTube identifier, and that the response is the success
    response for them. *)
Theorem ProcessSongJSON_response env jsonInput fs resp :
  let o := run (ProcessSongJSON env jsonInput) fs in
  (results o).1 = Some resp ->
  exists input httpResp registeredSongID,
    json_Unmarshal env jsonInput = Ok input /\
    SongURL input <> "" /\ Title input <> "" /\ Artist input <> "" /\
    In (EvGet (SongURL input) (Ok httpResp)) (trace o) /\
    http.StatusCode httpResp = http.StatusOK /\
    In (EvRegisterSong (Title input) (Artist input) (YoutubeID input)
                       (Ok registeredSongID)) (trace o) /\
    resp = {| Success := true;
              Message := "Song processed successfully";
              FilePath := finalPathOf input;
              FingerprintID := GoString.FormatUint registeredSongID |}.
Proof.
  intros o Hresp; subst o. revert Hresp. unfold ProcessSongJSON.
  destruct (json_Unmarshal env jsonInput) as [input | err];
    [| discriminate].
  destruct (String.eqb_spec (SongURL input) "") as [Hurl | Hurl];
    [discriminate |].
  destruct (String.eqb_spec (Title input) "") as [Htitle | Htitle];
    [discriminate |].
  destruct (String.eqb_spec (Artist input) "") as [Hartist | Hartist];
    [discriminate |].
  rewrite run_call_return.
  set (o := run (ProcessSongFromURL env input) fs).
  intros Hresp. exists input.
  run_cases; try discriminate.
  all: injection Hresp as <-.
  all: do 2 eexists; repeat split; try assumption;
    [ cbn; repeat first [left; reflexivity | right]
    | apply Z.eqb_eq;
      match goal with H : negb _ = false |- _ =>
        apply negb_false_iff in H; exact H end
    | cbn; repeat first [left; reflexivity | right] ].
Qed.

Lemma ProcessSongJSON_response_witness :
  let o := run (ProcessSongJSON service (list_byte_of_string hey_jude_json))
               ∅ in
  exists input httpResp registeredSongID,
    json_Unmarshal service (list_byte_of_string hey_jude_json) = Ok input /\
    SongURL input <> "" /\ Title input <> "" /\ Artist input <> "" /\
    In (EvGet (SongURL input) (Ok httpResp)) (trace o) /\
    http.StatusCode httpResp = http.StatusOK /\
    In (EvRegisterSong (Title input) (Artist input) (YoutubeID input)
                       (Ok registeredSongID)) (trace o) /\
    {| Success := true;
       Message := "Song processed successfully";
       FilePath := "songs/Hey Jude_The Beatles.wav";
       FingerprintID := "9" |}
    = {| Success := true;
         Message := "Song processed successfully";
         FilePath := finalPathOf input;
         FingerprintID := GoString.FormatUint registeredSongID |}.
Proof.
  apply (ProcessSongJSON_response service
           (list_byte_of_string hey_jude_json) ∅).
  vm_compute. reflexivity.
Defined.

(** ** No call is made twice *)


(** ** The identifier in the response *)

Lemma FormatUint_inj a b :
  GoString.FormatUint a = GoString.FormatUint b -> a = b.
Proof.
  unfold GoString.FormatUint. intros H.
  assert (Hnonnil : forall n, N.to_uint n <> Decimal.Nil).
  { intros [| p]; [discriminate |]. cbn.
    apply DecimalPos.Unsigned.to_uint_nonnil. }
  apply (f_equal NilZero.uint_of_string) in H.
  rewrite !NilZero.usu in H by apply Hnonnil.
  injection H as H.
  rewrite <- (DecimalN.Unsigned.of_to a), <- (DecimalN.Unsigned.of_to b), H.
  reflexivity.
Qed.

(** X17: the [FingerprintID] of a response identifies the registered
    song: two successful ingestions that report the same [FingerprintID]
    were given the same identifier by [RegisterSong]. *)
Theorem FingerprintID_identifies_the_song env1 env2 input1 input2 fs1 fs2
        resp1 resp2 title1 artist1 ytID1 title2 artist2 ytID2 id1 id2 :
  let o1 := run (ProcessSongFromURL env1 input1) fs1 in
  let o2 := run (ProcessSongFromURL env2 input2) fs2 in
  (results o1).1 = Some resp1 ->
  (results o2).1 = Some resp2 ->
  In (EvRegisterSong title1 artist1 ytID1 (Ok id1)) (trace o1) ->
  In (EvRegisterSong title2 artist2 ytID2 (Ok id2)) (trace o2) ->
  FingerprintID resp1 = FingerprintID resp2 ->
  id1 = id2.
Proof.
  intros o1 o2 Hresp1 Hresp2 Hreg1 Hreg2 Hsame.
  assert (H1 : FingerprintID resp1 = GoString.FormatUint id1).
  { clear Hresp2 Hreg2 Hsame. subst o2.
    run_cases; try discriminate; each_event Hreg1; simplify_eq; reflexivity. }
  assert (H2 : FingerprintID resp2 = GoString.FormatUint id2).
  { clear Hresp1 Hreg1 Hsame H1. subst o1.
    run_cases; try discriminate; each_event Hreg2; simplify_eq; reflexivity. }
  apply FormatUint_inj. congruence.
Qed.

Lemma FingerprintID_identifies_the_song_witness : 9%N = 9%N.
Proof.
  apply (FingerprintID_identifies_the_song
           two_ids rename_fails hey_jude hey_jude
           ∅ {["songs/Hey Jude_The Beatles.wav"]}
           {| Success := true;
              Message := "Song processed successfully";
              FilePath := "songs/Hey Jude_The Beatles.wav";
              FingerprintID := "9" |}
           {| Success := true;
              Message := "Song processed successfully";
              FilePath := "songs/Hey Jude_The Beatles.wav";
              FingerprintID := "9" |}
           "Hey Jude" "The Beatles" "A_MjCqQoLLA"
           "Hey Jude" "The Beatles" "A_MjCqQoLLA").
  - vm_compute. reflexivity.
  - vm_compute. reflexivity.
  - in_trace.
  - in_trace.
  - reflexivity.
Defined.
